(** * terraform-provider-modeanalytics: the shared HTTP layer

    A shallow embedding of [internal/provider/helpers.go] (the retrying
    request executor [HttpRetry] and the deletion verifier [CheckDeletion])
    and of the collection and data-source-permission resource handlers
    that call into it, together with the properties the design document
    states about them.

    Effects are explicit.  The upstream API is a function from the index of
    a request to what that request yields; the select statement of the poll
    loop is driven by the list of signals the runtime delivers; everything
    the code does to the outside world (requests, sleeps, prints, closing a
    body) is appended to a trace of events. *)

From Stdlib Require Import String Ascii List ZArith Lia Bool DecimalString.
Import ListNotations.
Open Scope string_scope.
Open Scope list_scope.

Set Implicit Arguments.

(** ** Strings: the fragments of [strings], [regexp] and [fmt] the code uses *)

Module Str.

(** [strings.CutPrefix]: the rest of [s] behind the prefix [p]. *)
Fixpoint strip_prefix (p s : string) : option string :=
  match p, s with
  | EmptyString, _ => Some s
  | String a p', String b s' =>
      if Ascii.eqb a b then strip_prefix p' s' else None
  | String _ _, EmptyString => None
  end.

Definition slash : ascii := "/"%char.

(** The longest run of characters other than '/' at the head of [s], and
    what follows it: how [[^/]+] consumes input when the next thing the
    pattern expects starts with '/' or is the end of the text. *)
Fixpoint span_segment (s : string) : string * string :=
  match s with
  | EmptyString => (EmptyString, EmptyString)
  | String c s' =>
      if Ascii.eqb c slash then (EmptyString, s)
      else let (seg, rest) := span_segment s' in (String c seg, rest)
  end.

Definition is_empty (s : string) : bool :=
  match s with EmptyString => true | String _ _ => false end.

(** A string without '/'. *)
Fixpoint slash_free (s : string) : bool :=
  match s with
  | EmptyString => true
  | String c s' => negb (Ascii.eqb c slash) && slash_free s'
  end.

(** What may follow a segment: nothing, or a '/'. *)
Definition segment_end (s : string) : Prop :=
  s = EmptyString \/ exists s', s = String slash s'.

(** [strings.Split(s, sep)[0]] for a non-empty [sep]: the text before the
    first occurrence of [sep], or all of [s] when there is none. *)
Fixpoint before_first (sep s : string) {struct s} : string :=
  match s with
  | EmptyString => EmptyString
  | String c s' =>
      match strip_prefix sep s with
      | Some _ => EmptyString
      | None => String c (before_first sep s')
      end
  end.

(** [x] occurs in [s] ([strings.Contains]). *)
Fixpoint contains (s x : string) {struct s} : bool :=
  match strip_prefix x s with
  | Some _ => true
  | None =>
      match s with
      | EmptyString => false
      | String _ s' => contains s' x
      end
  end.

(** The verb [%d] of [fmt] on an int. *)
Definition fmt_d (n : Z) : string := NilZero.string_of_int (Z.to_int n).

End Str.

(** ** net/http: status codes, responses, what a call yields *)

Definition StatusOK : Z := 200.
Definition StatusForbidden : Z := 403.
Definition StatusNotFound : Z := 404.
Definition StatusTooManyRequests : Z := 429.
Definition StatusInternalServerError : Z := 500.

Definition MethodGet : string := "GET".

(** A response.  [Body] stands for the body stream; the handlers only ever
    decode it, so a body is represented by the type [B] of what decoding
    can yield. *)
Record Response (B : Type) : Type := mkResponse {
  StatusCode : Z;
  Body : B
}.

(** What [client.Get] and [client.Do] yield: a response and a nil error, or
    a nil response and an error (here its text). *)
Inductive Outcome (B : Type) : Type :=
| Ok (resp : Response B)
| Fail (cause : string).

Arguments Fail {B} cause.

(** Go's [error]: nil, or a value whose [Error()] is the text. *)
Definition error : Type := option string.

(** ** HttpRetry

    The function as it stands in [helpers.go]: nine attempts at most, each
    built by [http.NewRequestWithContext] and looked at through
    [StatusCode]; the loop is left on the first status other than 429, a
    429 is followed by a sleep of ten seconds.  The [return] behind the
    loop names the two variables of the loop body, so what comes back is
    the pair of the latest attempt. *)

Module Retry.

(** The context handed to [HttpRetry]; the host cancels it [cancel_at]
    seconds after the call, or never. *)
Record Context : Type := mkContext { cancel_at : option Z }.

(** The pair [(httpReq, err)] of one attempt.  Either component may be nil;
    the loop reads [httpReq.StatusCode] without looking at [err]. *)
Record Attempt (B : Type) : Type := mkAttempt {
  att_resp : option (Response B);
  att_err : error
}.

Inductive Event : Type :=
| EvRequest (method url : string)
| EvSleep (seconds : Z).

(** How a call ends: it returns, or it dereferences nil. *)
Inductive Exit (A : Type) : Type :=
| Returned (a : A)
| Panicked.

Arguments Panicked {A}.

Record Run (B : Type) : Type := mkRun {
  exit : Exit (Attempt B);
  trace : list Event
}.

Definition sleep : Z := 10.
Definition attempts : nat := 9.

Section Loop.
Variable B : Type.
(** [upstream i]: what the attempt with loop index [i] yields. *)
Variable upstream : nat -> Attempt B.
Variable url : string.

(** The [for] loop with [remaining] iterations left, [i] the loop
    variable, [last] the pair of the latest attempt.  Every attempt is
    built with [http.MethodGet] and a nil body, whatever the caller
    passed. *)
Fixpoint HttpRetry_loop (remaining i : nat) (last : Attempt B)
    (tr : list Event) : Run B :=
  match remaining with
  | O => mkRun (Returned last) tr
  | S k =>
      let a := upstream i in
      let tr1 := tr ++ [EvRequest MethodGet url] in
      match att_resp a with
      | None => mkRun Panicked tr1
      | Some r =>
          if negb (StatusCode r =? StatusTooManyRequests)%Z
          then mkRun (Returned a) tr1
          else HttpRetry_loop k (S i) a (tr1 ++ [EvSleep sleep])
      end
  end.
End Loop.

Definition HttpRetry (B : Type) (ctx : Context) (method url : string)
    (body : option string) (upstream : nat -> Attempt B) : Run B :=
  HttpRetry_loop upstream url attempts 0 (mkAttempt None None) [].

Definition is_request (e : Event) : bool :=
  match e with EvRequest _ _ => true | EvSleep _ => false end.

Definition requests (tr : list Event) : nat :=
  List.length (List.filter is_request tr).

Definition sleeps (tr : list Event) : list Z :=
  List.flat_map (fun e => match e with EvSleep s => [s] | _ => [] end) tr.

(** An upstream that is rate-limited on the attempts before [n]. *)
Definition limited_before (B : Type) (upstream : nat -> Attempt B) (n : nat)
    : Prop :=
  forall i, i < n ->
    exists r, att_resp (upstream i) = Some r /\
              StatusCode r = StatusTooManyRequests.

(** One round of the loop on a rate-limited attempt. *)
Definition round (url : string) : list Event :=
  [EvRequest MethodGet url; EvSleep sleep].

Fixpoint rounds (url : string) (n : nat) : list Event :=
  match n with
  | O => []
  | S k => round url ++ rounds url k
  end.

(** The pair the loop holds after [n] rate-limited attempts from [i]. *)
Definition held (B : Type) (upstream : nat -> Attempt B) (n i : nat)
    (last : Attempt B) : Attempt B :=
  match n with
  | O => last
  | S k => upstream (i + k)
  end.

End Retry.

(** ** encoding/json: what decoding a body into a struct yields *)

Inductive Decode (A : Type) : Type :=
| Undecodable (cause : string)
| Decodes (a : A).

Arguments Undecodable {A} cause.

(** ** CheckDeletion *)

Module Deletion.

(** What the runtime delivers while the loop waits in [select]: the timer
    of [time.After(1 * time.Minute)] fires, the ticker of
    [time.NewTicker(10 * time.Second)] fires, or the host cancels the
    operation. *)
Inductive Signal : Type := Timeout | Tick | Cancelled.

(** The body of a poll, as decoding it into [struct { State string }]
    sees it. *)
Definition StateBody : Type := Decode string.

Inductive Event : Type :=
| EvGet (url : string)
| EvDo (method url : string)
| EvPrintln (text : string)
| EvClose (k : nat)
| EvTickerStop.

(** The world around one call: [upstream k] is what the [k]-th request
    sent through the client yields (polls and the secondary listing call
    alike), [new_request u] the error of [http.NewRequest("GET", u, nil)]. *)
Record Env : Type := mkEnv {
  upstream : nat -> Outcome StateBody;
  new_request : string -> error
}.

(** [regexp.MatchString("^https://[^/]+/api/[^/]+/spaces/[^/]+$", url)].
    Each [[^/]+] is followed by a '/' or by the end of the text, so the
    longest run is the only candidate. *)
Definition MatchString (url : string) : bool :=
  match Str.strip_prefix "https://" url with
  | None => false
  | Some r1 =>
      let (host, r2) := Str.span_segment r1 in
      negb (Str.is_empty host) &&
      match Str.strip_prefix "/api/" r2 with
      | None => false
      | Some r3 =>
          let (ws, r4) := Str.span_segment r3 in
          negb (Str.is_empty ws) &&
          match Str.strip_prefix "/spaces/" r4 with
          | None => false
          | Some r5 =>
              let (tok, r6) := Str.span_segment r5 in
              negb (Str.is_empty tok) && Str.is_empty r6
          end
      end
  end.

(** [strings.Split(resourceURL, "/spaces/")[0] + "/spaces?filter=all"]. *)
Definition listing_url (resourceURL : string) : string :=
  (Str.before_first "/spaces/" resourceURL ++ "/spaces?filter=all")%string.

Definition timed_out : string :=
  "deletion verification timed out after 1 minute".

Definition list_failed : string :=
  "Unable to read collections during deletion verification, got error: ".

(** [%s] applied to a nil error. *)
Definition fmt_s_nil : string := "%!s(<nil>)".

(** A [return]: the deferred calls run, latest first; [deferred] holds the
    indices of the responses whose [Body.Close()] is pending, and
    [ticker.Stop()] was deferred before all of them. *)
Definition leave (deferred : list nat) (tr : list Event) (e : error)
    : option (error * list Event) :=
  Some (e, tr ++ List.map EvClose deferred ++ [EvTickerStop]).

Section Loop.
Variable resourceURL : string.
Variable env : Env.

(** The [for { select { ... } }] loop; [n] requests were sent so far.
    [None]: the signals ran out while the loop was still waiting.  The
    select has a case for the timer and one for the ticker, none for a
    cancellation. *)
Fixpoint CheckDeletion_loop (signals : list Signal) (n : nat)
    (deferred : list nat) (tr : list Event)
    : option (error * list Event) :=
  match signals with
  | [] => None
  | Cancelled :: rest => CheckDeletion_loop rest n deferred tr
  | Timeout :: _ => leave deferred tr (Some timed_out)
  | Tick :: rest =>
      let tr1 := tr ++ [EvGet resourceURL] in
      match upstream env n with
      | Fail cause =>
          leave deferred tr1
            (Some ("error making GET request: " ++ cause)%string)
      | Ok resp =>
          let deferred1 := n :: deferred in
          if (StatusCode resp =? StatusNotFound)%Z then
            leave deferred1
              (tr1 ++ [EvPrintln
                         "Deletion verified: resource not found (404)"])
              None
          else if (StatusCode resp =? StatusForbidden)%Z then
            if MatchString resourceURL then
              let url := listing_url resourceURL in
              match new_request env url with
              | Some cause =>
                  leave deferred1 tr1 (Some (list_failed ++ cause)%string)
              | None =>
                  let tr2 := tr1 ++ [EvDo MethodGet url] in
                  match upstream env (S n) with
                  | Fail cause =>
                      leave deferred1 tr2
                        (Some (list_failed ++ cause)%string)
                  | Ok httpResp =>
                      let deferred2 := S n :: deferred1 in
                      if negb (StatusCode httpResp =? StatusOK)%Z then
                        leave deferred2 tr2
                          (Some (list_failed ++ fmt_s_nil)%string)
                      else leave deferred2 tr2 None
                  end
              end
            else
              leave deferred1 tr1
                (Some ("unexpected status: "
                       ++ Str.fmt_d (StatusCode resp)
                       ++ ", not retrying")%string)
          else if (StatusCode resp =? StatusOK)%Z then
            match Body resp with
            | Undecodable cause =>
                leave deferred1 tr1
                  (Some ("error decoding response: " ++ cause)%string)
            | Decodes state =>
                if String.eqb state "soft_deleted" then
                  leave deferred1
                    (tr1 ++ [EvPrintln
                               "Deletion verified: resource is soft deleted"])
                    None
                else
                  CheckDeletion_loop rest (S n) deferred1
                    (tr1 ++ [EvPrintln
                               ("Resource state: " ++ state
                                ++ " still active, retrying...")%string])
            end
          else
            leave deferred1 tr1
              (Some ("unexpected status or state: "
                     ++ Str.fmt_d (StatusCode resp)
                     ++ ", not retrying")%string)
      end
  end.

Definition CheckDeletion (signals : list Signal)
    : option (error * list Event) :=
  CheckDeletion_loop signals 0 [] [].
End Loop.

(** Requests a trace holds, in order. *)
Definition is_request (e : Event) : bool :=
  match e with
  | EvGet _ | EvDo _ _ => true
  | _ => false
  end.

Definition requests (tr : list Event) : list Event :=
  List.filter is_request tr.

(** How often the body of response [k] is closed in a trace. *)
Definition closes (k : nat) (tr : list Event) : nat :=
  List.length
    (List.filter (fun e => match e with
                           | EvClose j => Nat.eqb j k
                           | _ => false
                           end) tr).

(** Request [j] was answered: the caller got a response, and with it a
    body to close. *)
Definition answered (env : Env) (j : nat) : bool :=
  match upstream env j with Ok _ => true | Fail _ => false end.

(** The body of response [j] came into the hands of the run with trace
    [tr]. *)
Definition acquired (env : Env) (tr : list Event) (j : nat) : bool :=
  Nat.ltb j (List.length (requests tr)) && answered env j.

(** The loop's bookkeeping after [n] requests: nothing closed yet, one
    pending close for each of the [n] responses, all of them answered. *)
Record pending (env : Env) (n : nat) (deferred : list nat)
    (tr : list Event) : Prop := mkPending {
  none_closed : forall j, closes j tr = 0;
  sent : List.length (requests tr) = n;
  one_each : forall j, closes j (List.map EvClose deferred) =
                       if Nat.ltb j n then 1 else 0;
  all_answered : forall i, i < n -> answered env i = true
}.

(** A poll that says the resource is there and not soft deleted. *)
Definition still_active (o : Outcome StateBody) : Prop :=
  exists state,
    o = Ok (mkResponse StatusOK (Decodes state)) /\
    state <> "soft_deleted".

Definition active_before (env : Env) (k : nat) : Prop :=
  forall i, i < k -> still_active (upstream env i).

(** The events of one poll that found the resource still active, given
    the state it reported. *)
Definition active_round (resourceURL state : string) : list Event :=
  [EvGet resourceURL;
   EvPrintln ("Resource state: " ++ state
              ++ " still active, retrying...")%string].

(** The state field in the answer to request [i]. *)
Definition reported (env : Env) (i : nat) : string :=
  match upstream env i with
  | Ok resp =>
      match Body resp with
      | Decodes state => state
      | Undecodable _ => EmptyString
      end
  | Fail _ => EmptyString
  end.

(** The events of the [k] polls from request [n] on, when each found the
    resource still active. *)
Definition active_rounds (resourceURL : string) (env : Env) (n k : nat)
    : list Event :=
  List.flat_map (fun i => active_round resourceURL (reported env i))
                (List.seq n k).

(** The signals a select with a timer case and a ticker case can receive. *)
Definition received (s : Signal) : bool :=
  match s with Cancelled => false | _ => true end.

(** An upstream that answers the requests before [k] with 200 and state
    "active", and request [k] and the later ones with [then_]. *)
Definition active_then (k : nat) (then_ : Outcome StateBody)
    : Env :=
  mkEnv
    (fun i => if Nat.ltb i k
              then Ok (mkResponse StatusOK (Decodes "active"))
              else then_)
    (fun _ => None).

(** The texts of the errors [CheckDeletion] builds, each with what it is
    built from: the timeout text from nothing, the others from the cause of
    a failed call or from the status of a poll; the text of a failed
    workaround is given by its head only. *)
Inductive explained (resourceURL : string) (env : Env) : string -> Prop :=
| explained_timeout :
    explained resourceURL env timed_out
| explained_get (k : nat) (cause : string) :
    upstream env k = Fail cause ->
    explained resourceURL env ("error making GET request: " ++ cause)%string
| explained_decode (k : nat) (resp : Response StateBody) (cause : string) :
    upstream env k = Ok resp ->
    StatusCode resp = StatusOK ->
    Body resp = Undecodable cause ->
    explained resourceURL env ("error decoding response: " ++ cause)%string
| explained_forbidden (k : nat) (resp : Response StateBody) :
    upstream env k = Ok resp ->
    StatusCode resp = StatusForbidden ->
    MatchString resourceURL = false ->
    explained resourceURL env
      ("unexpected status: " ++ Str.fmt_d (StatusCode resp)
       ++ ", not retrying")%string
| explained_status (k : nat) (resp : Response StateBody) :
    upstream env k = Ok resp ->
    StatusCode resp <> StatusOK ->
    StatusCode resp <> StatusForbidden ->
    StatusCode resp <> StatusNotFound ->
    explained resourceURL env
      ("unexpected status or state: " ++ Str.fmt_d (StatusCode resp)
       ++ ", not retrying")%string
| explained_listing (k : nat) (resp : Response StateBody) (tail : string) :
    upstream env k = Ok resp ->
    StatusCode resp = StatusForbidden ->
    MatchString resourceURL = true ->
    explained resourceURL env (list_failed ++ tail)%string.

End Deletion.

(** ** The verifier as the design document words it *)

Module Spec.

Inductive State : Type := Polling | ConfirmedDeleted | TimedOut | Errored.

(** What one wake-up of the verifier observes. *)
Inductive Input : Type :=
| TimeoutElapsed
| NoResponse
| BodyUnreadable
| Status (code : Z) (state : string)
| Forbidden (url_matches : bool) (secondary : option Z).

(** The transitions of the design document's state machine; transport and
    decode errors are surfaced, terminal states are final. *)
Definition transition (s : State) (i : Input) : State :=
  match s with
  | Polling =>
      match i with
      | TimeoutElapsed => TimedOut
      | NoResponse => Errored
      | BodyUnreadable => Errored
      | Status code state =>
          if (code =? 404)%Z then ConfirmedDeleted
          else if (code =? 200)%Z then
            if String.eqb state "soft_deleted" then ConfirmedDeleted
            else Polling
          else Errored
      | Forbidden url_matches secondary =>
          if url_matches then
            match secondary with
            | Some code => if (code =? 200)%Z then ConfirmedDeleted
                           else Errored
            | None => Errored
            end
          else Errored
      end
  | _ => s
  end.

(** What the tick that sends request [n] observes. *)
Definition observe (resourceURL : string) (env : Deletion.Env) (n : nat)
    : Input :=
  match Deletion.upstream env n with
  | Fail _ => NoResponse
  | Ok resp =>
      if (StatusCode resp =? 403)%Z then
        Forbidden (Deletion.MatchString resourceURL)
          match Deletion.new_request env (Deletion.listing_url resourceURL) with
          | Some _ => None
          | None =>
              match Deletion.upstream env (S n) with
              | Fail _ => None
              | Ok second => Some (StatusCode second)
              end
          end
      else if (StatusCode resp =? 200)%Z then
        match Body resp with
        | Undecodable _ => BodyUnreadable
        | Decodes state => Status 200 state
        end
      else Status (StatusCode resp) EmptyString
  end.

(** The machine driven by the signals; section 4.2 has no transition for a
    cancellation. *)
Fixpoint run (resourceURL : string) (env : Deletion.Env)
    (signals : list Deletion.Signal) (n : nat) (s : State) : State :=
  match signals with
  | [] => s
  | Deletion.Cancelled :: rest => run resourceURL env rest n s
  | Deletion.Timeout :: rest =>
      run resourceURL env rest n (transition s TimeoutElapsed)
  | Deletion.Tick :: rest =>
      run resourceURL env rest (S n)
        (transition s (observe resourceURL env n))
  end.

(** The listing endpoint of the collections of workspace [ws] on [host],
    with the "all" filter. *)
Definition parent_listing (host ws : string) : string :=
  ("https://" ++ host ++ "/api/" ++ ws ++ "/spaces?filter=all")%string.

(** The address of the collection [tok] of workspace [ws] on [host]. *)
Definition collection_url (host ws tok : string) : string :=
  ("https://" ++ host ++ "/api/" ++ ws ++ "/spaces/" ++ tok)%string.

End Spec.

(** What [CheckDeletion] returned, read as a state of the machine: still
    waiting, returned nil, returned the timeout error, returned another
    error. *)
Definition agrees (r : option (error * list Deletion.Event))
    (s : Spec.State) : Prop :=
  match r with
  | None => s = Spec.Polling
  | Some (None, _) => s = Spec.ConfirmedDeleted
  | Some (Some e, _) =>
      (e = Deletion.timed_out /\ s = Spec.TimedOut) \/
      (e <> Deletion.timed_out /\ s = Spec.Errored)
  end.

(** ** terraform-plugin-framework: values, diagnostics, state *)

Module Tf.

Inductive TString : Type :=
| StringNull
| StringUnknown
| StringValue (s : string).

Inductive TBool : Type :=
| BoolNull
| BoolUnknown
| BoolValue (b : bool).

Definition ValueString (v : TString) : string :=
  match v with StringValue s => s | _ => EmptyString end.

Definition ValueBool (v : TBool) : bool :=
  match v with BoolValue b => b | _ => false end.

Record Diagnostic : Type := mkDiag { summary : string; detail : string }.

(** What a handler did to the stored state. *)
Inductive StateOp (M : Type) : Type :=
| Untouched
| StateSet (m : M)
| RemoveResource.

Arguments Untouched {M}.
Arguments RemoveResource {M}.

(** One handler call: its diagnostics, its effect on the state, and the
    responses whose body it closed (the handler's first response is 0). *)
Record HandlerRun (M : Type) : Type := mkHandlerRun {
  diagnostics : list Diagnostic;
  state_op : StateOp M;
  closed : list nat
}.

Record Request (P : Type) : Type := mkRequest {
  req_method : string;
  req_url : string;
  req_body : option P
}.

Definition failed (M : Type) (summary detail : string) (closed : list nat)
    : HandlerRun M :=
  mkHandlerRun [mkDiag summary detail] Untouched closed.

End Tf.

(** ** DataSourcePermissionResource *)

Module DataSourcePermissionResource.
Import Tf.

Record Resource : Type := mkResource {
  modeHost : string;
  workspaceId : string
}.

Record DataSourcePermissionResourceModel : Type := mkModel {
  DataSourceToken : TString;
  Action : TString;
  AccessorToken : TString;
  AccessorType : TString;
  PermissionToken : TString
}.

Record Permission : Type := mkPermission {
  p_Action : string;
  p_AccessorType : string;
  p_AccessorToken : string
}.

Record DataSourcePermissionPayload : Type := mkPayload {
  payload_Permission : Permission
}.

(** The body of the answer to a create, decoded into
    [struct { PermissionToken string }]. *)
Definition TokenBody : Type := Decode string.

Section Handlers.
(** [http.NewRequestWithContext(ctx, method, url, body)]: its error. *)
Variable new_request : string -> string -> error.
(** [HttpRetry(r.client, httpReq)], the two-argument executor the handler
    calls: the response or the error it hands back. *)
Variable send : Request DataSourcePermissionPayload -> Outcome TokenBody.
(** The verb [%v] on the response pointer. *)
Variable fmt_v : option (Response TokenBody) -> string.

Definition Create_url (r : Resource)
    (plan : DataSourcePermissionResourceModel) : string :=
  (modeHost r ++ "/api/" ++ workspaceId r ++ "/data_sources/"
   ++ ValueString (DataSourceToken plan) ++ "/permissions")%string.

Definition Create_payload (plan : DataSourcePermissionResourceModel)
    : DataSourcePermissionPayload :=
  mkPayload (mkPermission (ValueString (Action plan))
                          (ValueString (AccessorType plan))
                          (ValueString (AccessorToken plan))).

Definition Create (r : Resource)
    (plan : DataSourcePermissionResourceModel)
    : HandlerRun DataSourcePermissionResourceModel :=
  let url := Create_url r plan in
  match new_request "POST" url with
  | Some cause =>
      failed _ "Client Error"
        ("One Unable to create data source permission, got error: "
         ++ cause)%string []
  | None =>
      match send (mkRequest "POST" url (Some (Create_payload plan))) with
      | Fail _ =>
          failed _ "Client Error"
            ("Two Unable to create data source permission, got error: "
             ++ fmt_v None)%string []
      | Ok httpResp =>
          if negb (StatusCode httpResp =? StatusOK)%Z then
            failed _ "Client Error"
              ("Two Unable to create data source permission, got error: "
               ++ fmt_v (Some httpResp))%string []
          else
            match Body httpResp with
            | Undecodable cause =>
                failed _ "Client Error"
                  ("Error parsing response: " ++ cause)%string [0]
            | Decodes token =>
                mkHandlerRun []
                  (StateSet
                     (mkModel (DataSourceToken plan) (Action plan)
                              (AccessorToken plan) (AccessorType plan)
                              (StringValue token)))
                  [0]
            end
      end
  end.
End Handlers.

(** How many response bodies a call to [Create] came to own. *)
Definition acquired (o : Outcome TokenBody) : nat :=
  match o with Ok _ => 1 | Fail _ => 0 end.

End DataSourcePermissionResource.

(** ** CollectionResource *)

Module CollectionResource.
Import Tf.

Record Resource : Type := mkResource {
  modeHost : string;
  workspaceId : string
}.

Record CollectionModel : Type := mkModel {
  Name : TString;
  State : TString;
  CollectionToken : TString;
  CollectionType : TString;
  Id : TString;
  Description : TString;
  Restricted : TBool;
  FreeDefault : TBool;
  Viewable : TBool;
  DefaultAccessLevel : TString
}.

Record Collection : Type := mkCollection {
  c_CollectionType : string;
  c_Name : string;
  c_Description : string;
  c_Restricted : bool;
  c_FreeDefault : bool;
  c_Viewable : bool;
  c_DefaultAccessLevel : string
}.

Record CollectionPayload : Type := mkPayload {
  payload_Collection : Collection
}.

(** The anonymous struct [responseData] of [Create] and [Read]. *)
Record ResponseData : Type := mkResponseData {
  d_Id : string;
  d_Name : string;
  d_State : string;
  d_CollectionType : string;
  d_CollectionToken : string;
  d_Description : string;
  d_Restricted : bool;
  d_FreeDefault : bool;
  d_Viewable : bool;
  d_DefaultAccessLevel : string
}.

Definition DataBody : Type := Decode ResponseData.

Definition Create_payload (plan : CollectionModel) : CollectionPayload :=
  let payload :=
    mkCollection (ValueString (CollectionType plan))
                 (ValueString (Name plan))
                 (ValueString (Description plan))
                 (ValueBool (Restricted plan))
                 (ValueBool (FreeDefault plan))
                 (ValueBool (Viewable plan))
                 (ValueString (DefaultAccessLevel plan)) in
  if String.eqb (ValueString (DefaultAccessLevel plan)) "restricted" then
    mkPayload
      (mkCollection (c_CollectionType payload) (c_Name payload)
                    (c_Description payload) (c_Restricted payload)
                    (c_FreeDefault payload) (c_Viewable payload) "none")
  else mkPayload payload.

Section Handlers.
Variable new_request : string -> string -> error.
Variable send : Request CollectionPayload -> Outcome DataBody.
Variable fmt_v : option (Response DataBody) -> string.

Definition Create_url (r : Resource) : string :=
  (modeHost r ++ "/api/" ++ workspaceId r ++ "/spaces")%string.

Definition Create (r : Resource) (plan : CollectionModel)
    : HandlerRun CollectionModel :=
  let url := Create_url r in
  match new_request "POST" url with
  | Some cause =>
      failed _ "Client Error"
        ("One Unable to create collection, got error: " ++ cause)%string []
  | None =>
      match send (mkRequest "POST" url (Some (Create_payload plan))) with
      | Fail _ =>
          failed _ "Client Error"
            ("Two Unable to create collection, got error: "
             ++ fmt_v None)%string []
      | Ok httpResp =>
          if negb (StatusCode httpResp =? StatusOK)%Z then
            failed _ "Client Error"
              ("Two Unable to create collection, got error: "
               ++ fmt_v (Some httpResp))%string []
          else
            match Body httpResp with
            | Undecodable cause =>
                failed _ "Client Error"
                  ("Error parsing response: " ++ cause)%string [0]
            | Decodes d =>
                mkHandlerRun []
                  (StateSet
                     (mkModel (Name plan)
                              (StringValue (d_State d))
                              (StringValue (d_CollectionToken d))
                              (CollectionType plan)
                              (StringValue (d_Id d))
                              (Description plan)
                              (BoolValue (d_Restricted d))
                              (BoolValue (d_FreeDefault d))
                              (BoolValue (d_Viewable d))
                              (StringValue (d_DefaultAccessLevel d))))
                  [0]
            end
      end
  end.

Definition Read_url (r : Resource) (state : CollectionModel) : string :=
  (modeHost r ++ "/api/" ++ workspaceId r ++ "/spaces/"
   ++ ValueString (CollectionToken state))%string.

(** The listing the 403 workaround of [Read] asks for. *)
Definition Read_listing_url (r : Resource) : string :=
  (modeHost r ++ "/api/" ++ workspaceId r ++ "/spaces?filter=all")%string.

Definition unable_to_read : string :=
  "Unable to read collection, got error: ".

Definition Read (r : Resource) (state : CollectionModel)
    : HandlerRun CollectionModel :=
  let url := Read_url r state in
  match new_request "GET" url with
  | Some cause =>
      failed _ "Client Error" (unable_to_read ++ cause)%string []
  | None =>
      match send (mkRequest "GET" url None) with
      | Fail cause =>
          failed _ "Client Error" (unable_to_read ++ cause)%string []
      | Ok httpResp =>
          if (StatusCode httpResp =? StatusOK)%Z then
            match Body httpResp with
            | Undecodable cause =>
                failed _ "Client Error"
                  ("Error parsing response: " ++ cause)%string [0]
            | Decodes d =>
                if String.eqb (d_State d) "soft_deleted" then
                  mkHandlerRun [] RemoveResource [0]
                else
                  mkHandlerRun []
                    (StateSet
                       (mkModel (StringValue (d_Name d))
                                (StringValue (d_State d))
                                (CollectionToken state)
                                (StringValue (d_CollectionType d))
                                (Id state)
                                (StringValue (d_Description d))
                                (BoolValue (d_Restricted d))
                                (BoolValue (d_FreeDefault d))
                                (BoolValue (d_Viewable d))
                                (StringValue (d_DefaultAccessLevel d))))
                    [0]
            end
          else if (StatusCode httpResp =? StatusNotFound)%Z then
            mkHandlerRun [] RemoveResource [0]
          else if (StatusCode httpResp =? StatusForbidden)%Z then
            let url2 := Read_listing_url r in
            match new_request "GET" url2 with
            | Some cause =>
                failed _ "Client Error" (unable_to_read ++ cause)%string [0]
            | None =>
                match send (mkRequest "GET" url2 None) with
                | Fail cause =>
                    failed _ "Client Error"
                      (unable_to_read ++ cause)%string [0]
                | Ok httpResp2 =>
                    if (StatusCode httpResp2 =? StatusOK)%Z then
                      mkHandlerRun [] RemoveResource [1; 0]
                    else
                      failed _ "Client Error"
                        (unable_to_read ++ Deletion.fmt_s_nil)%string [1; 0]
                end
            end
          else
            failed _ "API response error"
              ("Received non-200 response status: "
               ++ Str.fmt_d (StatusCode httpResp))%string [0]
      end
  end.
End Handlers.

(** An upstream that keeps a posted collection as it was sent: the answer
    it gives for the collection, under the token and id it assigned. *)
Definition stored (token id : string) (c : Collection) : ResponseData :=
  mkResponseData id (c_Name c) "active" (c_CollectionType c) token
                 (c_Description c) (c_Restricted c) (c_FreeDefault c)
                 (c_Viewable c) (c_DefaultAccessLevel c).

(** That upstream on the POST of [Create]: it answers 200 with the
    collection it now keeps. *)
Definition on_post (token id : string) (req : Request CollectionPayload)
    : Outcome DataBody :=
  match req_body req with
  | Some p =>
      Ok (mkResponse StatusOK
            (Decodes (stored token id (payload_Collection p))))
  | None => Ok (mkResponse 400%Z (Undecodable "unexpected end of JSON input"))
  end.

(** That upstream on a later GET: it answers 200 with what it keeps. *)
Definition on_get (kept : ResponseData) (req : Request CollectionPayload)
    : Outcome DataBody :=
  Ok (mkResponse StatusOK (Decodes kept)).

(** [Create] on [plan], then [Read] on the state [Create] stored, against
    the storing upstream: the state after each of the two. *)
Definition create_then_read (r : Resource) (plan : CollectionModel)
    (token id : string)
    : option (CollectionModel * StateOp CollectionModel) :=
  let no_error : string -> string -> error := fun _ _ => None in
  let show : option (Response DataBody) -> string := fun _ => EmptyString in
  match state_op (Create no_error (on_post token id) show r plan) with
  | StateSet created =>
      let kept := stored token id (payload_Collection (Create_payload plan)) in
      Some (created, state_op (Read no_error (on_get kept) r created))
  | _ => None
  end.

(** The attributes of a collection a configuration sets. *)
Record Planned : Type := mkPlanned {
  pl_CollectionType : string;
  pl_Name : string;
  pl_Description : string;
  pl_Restricted : bool;
  pl_FreeDefault : bool;
  pl_Viewable : bool;
  pl_DefaultAccessLevel : string
}.

Definition planned (m : CollectionModel) : Planned :=
  mkPlanned (ValueString (CollectionType m)) (ValueString (Name m))
            (ValueString (Description m)) (ValueBool (Restricted m))
            (ValueBool (FreeDefault m)) (ValueBool (Viewable m))
            (ValueString (DefaultAccessLevel m)).

End CollectionResource.

(** ** The provider: configuration *)

Module Provider.
Import Tf.

Definition IsNull (v : TString) : bool :=
  match v with StringNull => true | _ => false end.

Record ScaffoldingProviderModel : Type := mkProviderModel {
  ModeHost : TString;
  ApiToken : TString;
  ApiSecret : TString;
  WorkspaceId : TString
}.

(** The transport of the client: the credentials it adds to every
    request, on top of [http.DefaultTransport]. *)
Record customTransport : Type := mkTransport {
  apiToken : string;
  apiSecret : string
}.

(** What [Configure] hands to the resources and to the data sources. *)
Record ProviderData : Type := mkProviderData {
  Client : customTransport;
  pd_ModeHost : string;
  pd_WorkspaceId : string
}.

Record ConfigureResponse : Type := mkConfigureResponse {
  cfg_diagnostics : list Diagnostic;
  DataSourceData : option ProviderData;
  ResourceData : option ProviderData
}.

(** A value of the provider block, or the environment when the block has
    none. *)
Definition setting (getenv : string -> string) (name : string)
    (configured : TString) : string :=
  if negb (IsNull configured) then ValueString configured else getenv name.

Definition missing_configuration : Diagnostic :=
  mkDiag "Missing Configuration"
    "All of mode_host, api_token, api_secret, and workspace_id must be set either as environment variables or in the provider configuration block.".

(** [Configure]; [getenv] is [os.Getenv], empty for a variable that is not
    set. *)
Definition Configure (getenv : string -> string)
    (data : ScaffoldingProviderModel) : ConfigureResponse :=
  let modeHost := setting getenv "MODE_ANALYTICS_HOST" (ModeHost data) in
  let apiToken := setting getenv "MODE_ANALYTICS_API_TOKEN" (ApiToken data) in
  let apiSecret :=
    setting getenv "MODE_ANALYTICS_API_SECRET" (ApiSecret data) in
  let workspaceId :=
    setting getenv "MODE_ANALYTICS_WORKSPACE_ID" (WorkspaceId data) in
  if Str.is_empty modeHost || Str.is_empty apiToken
     || Str.is_empty apiSecret || Str.is_empty workspaceId
  then mkConfigureResponse [missing_configuration] None None
  else
    let client := mkTransport apiToken apiSecret in
    mkConfigureResponse []
      (Some (mkProviderData client modeHost workspaceId))
      (Some (mkProviderData client modeHost workspaceId)).

(** The setting [name] is supplied with the text [s]: by the provider
    block, or by the environment when the block leaves it null. *)
Definition supplied (getenv : string -> string) (name : string)
    (configured : TString) (s : string) : Prop :=
  s <> EmptyString /\
  (configured = StringValue s \/
   (configured = StringNull /\ getenv name = s)).

(** A value the configuration holds without text: unknown, or the empty
    string. *)
Definition blank (v : TString) : Prop :=
  v = StringUnknown \/ v = StringValue EmptyString.

End Provider.

(** ** CollectionResource: update and delete *)

Module CollectionLifecycle.
Import Tf CollectionResource.

Definition Update_payload (plan : CollectionModel) : CollectionPayload :=
  mkPayload
    (mkCollection (ValueString (CollectionType plan))
                  (ValueString (Name plan))
                  (ValueString (Description plan))
                  (ValueBool (Restricted plan))
                  (ValueBool (FreeDefault plan))
                  (ValueBool (Viewable plan))
                  (ValueString (DefaultAccessLevel plan))).

Section Handlers.
Variable new_request : string -> string -> error.
Variable send : Request CollectionPayload -> Outcome DataBody.
Variable fmt_v : option (Response DataBody) -> string.

Definition Update (r : Resource) (plan : CollectionModel)
    : HandlerRun CollectionModel :=
  let url := Read_url r plan in
  match new_request "PATCH" url with
  | Some cause =>
      failed _ "Client Error"
        ("Unable to update collection, got error: " ++ cause)%string []
  | None =>
      match send (mkRequest "PATCH" url (Some (Update_payload plan))) with
      | Fail _ =>
          failed _ "Client Error"
            ("Unable to update collection, got error: " ++ url)%string []
      | Ok httpResp =>
          if negb (StatusCode httpResp =? StatusOK)%Z then
            failed _ "Client Error"
              ("Unable to update collection, got error: " ++ url)%string []
          else
            match Body httpResp with
            | Undecodable cause =>
                failed _ "Client Error"
                  ("Error parsing response: " ++ cause)%string [0]
            | Decodes d =>
                mkHandlerRun []
                  (StateSet
                     (mkModel (StringValue (d_Name d))
                              (StringValue (d_State d))
                              (CollectionToken plan)
                              (StringValue (d_CollectionType d))
                              (Id plan)
                              (StringValue (d_Description d))
                              (BoolValue (d_Restricted d))
                              (BoolValue (d_FreeDefault d))
                              (BoolValue (d_Viewable d))
                              (StringValue (d_DefaultAccessLevel d))))
                  [0]
            end
      end
  end.

(** The world of the verification [Delete] asks for: what the polls of
    [CheckDeletion] are answered, and the signals its select receives. *)
Variable polls : Deletion.Env.
Variable signals : list Deletion.Signal.

(** [Delete]; [None] when [CheckDeletion] never returns. *)
Definition Delete (r : Resource) (state : CollectionModel)
    : option (HandlerRun CollectionModel) :=
  let url := Read_url r state in
  match new_request "DELETE" url with
  | Some cause =>
      Some (failed _ "Client Error"
              ("Unable to delete collection, got error: " ++ cause)%string
              [])
  | None =>
      match send (mkRequest "DELETE" url None) with
      | Fail _ =>
          Some (failed _ "Client Error"
                  ("Unable to delete collection, got error: "
                   ++ fmt_v None)%string [])
      | Ok httpResp =>
          if negb (StatusCode httpResp =? StatusOK)%Z then
            Some (failed _ "Client Error"
                    ("Unable to delete collection, got error: "
                     ++ fmt_v (Some httpResp))%string [])
          else
            match Deletion.CheckDeletion url polls signals with
            | None => None
            | Some (Some deletionErr, _) =>
                Some (failed _ "Collection Deletion Error"
                        ("Failed to verify deletion: "
                         ++ deletionErr)%string [0])
            | Some (None, _) => Some (mkHandlerRun [] RemoveResource [0])
            end
      end
  end.
End Handlers.

(** [Update] on [plan], then [Read] on the state [Update] stored, against
    the upstream that keeps what it is sent. *)
Definition update_then_read (r : Resource) (plan : CollectionModel)
    (token id : string)
    : option (CollectionModel * StateOp CollectionModel) :=
  let no_error : string -> string -> error := fun _ _ => None in
  match state_op (Update no_error (on_post token id) r plan) with
  | StateSet updated =>
      let kept := stored token id (payload_Collection (Update_payload plan)) in
      Some (updated, state_op (Read no_error (on_get kept) r updated))
  | _ => None
  end.

End CollectionLifecycle.

(** ** DataSourcePermissionResource: read *)

Module DataSourcePermissionRead.
Import Tf DataSourcePermissionResource.

(** One element of [_embedded.data_source_entitlements]. *)
Record Entitlement : Type := mkEntitlement {
  e_PermissionToken : string;
  e_Action : string
}.

(** A body as the two decodings of [Read] see it: into
    [struct { PermissionToken, Action string }] (token, action), and into
    the listing of entitlements. *)
Record ReadBody : Type := mkReadBody {
  as_permission : Decode (string * string);
  as_listing : Decode (list Entitlement)
}.

(** The [for ... range] over the entitlements, left at the first one with
    the token. *)
Fixpoint find_entitlement (token : string) (l : list Entitlement)
    : option Entitlement :=
  match l with
  | [] => None
  | e :: rest =>
      if String.eqb (e_PermissionToken e) token then Some e
      else find_entitlement token rest
  end.

Definition with_action (state : DataSourcePermissionResourceModel)
    (action : string) : DataSourcePermissionResourceModel :=
  mkModel (DataSourceToken state) (StringValue action)
          (AccessorToken state) (AccessorType state)
          (PermissionToken state).

Definition unable_to_read : string :=
  "Unable to read data source permission, got error: ".

Section Handlers.
Variable new_request : string -> string -> error.
Variable send : Request DataSourcePermissionPayload -> Outcome ReadBody.

Definition Read_url (r : Resource)
    (state : DataSourcePermissionResourceModel) : string :=
  (modeHost r ++ "/api/" ++ workspaceId r ++ "/data_sources/"
   ++ ValueString (DataSourceToken state) ++ "/permissions/"
   ++ ValueString (PermissionToken state))%string.

Definition list_url (r : Resource)
    (state : DataSourcePermissionResourceModel) : string :=
  (modeHost r ++ "/api/" ++ workspaceId r ++ "/data_sources/"
   ++ ValueString (DataSourceToken state) ++ "/permissions")%string.

Definition Read (r : Resource) (state : DataSourcePermissionResourceModel)
    : HandlerRun DataSourcePermissionResourceModel :=
  let url := Read_url r state in
  match new_request "GET" url with
  | Some cause =>
      failed _ "Client Error" (unable_to_read ++ cause)%string []
  | None =>
      match send (mkRequest "GET" url None) with
      | Fail cause =>
          failed _ "Client Error" (unable_to_read ++ cause)%string []
      | Ok httpResp =>
          if (StatusCode httpResp =? StatusOK)%Z then
            match as_permission (Body httpResp) with
            | Undecodable cause =>
                failed _ "Client Error"
                  ("Error parsing response: " ++ cause)%string [0]
            | Decodes (_, action) =>
                mkHandlerRun [] (StateSet (with_action state action)) [0]
            end
          else if (StatusCode httpResp =? StatusNotFound)%Z then
            mkHandlerRun [] RemoveResource [0]
          else if (StatusCode httpResp =? StatusInternalServerError)%Z then
            let list_url := list_url r state in
            match new_request "GET" list_url with
            | Some cause =>
                failed _ "Client Error" (unable_to_read ++ cause)%string [0]
            | None =>
                match send (mkRequest "GET" list_url None) with
                | Fail cause =>
                    failed _ "Client Error"
                      (unable_to_read ++ cause)%string [0]
                | Ok listHttpResp =>
                    if (StatusCode listHttpResp =? StatusOK)%Z then
                      match as_listing (Body listHttpResp) with
                      | Undecodable cause =>
                          failed _ "Client Error"
                            ("Error parsing response: " ++ cause)%string
                            [1; 0]
                      | Decodes entitlements =>
                          match find_entitlement
                                  (ValueString (PermissionToken state))
                                  entitlements with
                          | Some e =>
                              mkHandlerRun []
                                (StateSet (with_action state (e_Action e)))
                                [1; 0]
                          | None => mkHandlerRun [] RemoveResource [1; 0]
                          end
                      end
                    else
                      failed _ "API response error"
                        ("Received non-200 response status: "
                         ++ Str.fmt_d (StatusCode listHttpResp))%string
                        [1; 0]
                end
            end
          else
            failed _ "API response error"
              ("Received non-200 response status: "
               ++ Str.fmt_d (StatusCode httpResp))%string [0]
      end
  end.
End Handlers.

(** An answer to the first call of [Read] that sends it to the listing. *)
Definition internal_error : Response ReadBody :=
  mkResponse StatusInternalServerError
    (mkReadBody (Undecodable "EOF") (Undecodable "EOF")).

End DataSourcePermissionRead.

(** ** GroupsDataSource *)

Module GroupsDataSource.
Import Tf.

Record DataSource : Type := mkDataSource {
  modeHost : string;
  workspaceId : string
}.

Record GroupResourceModel : Type := mkGroup {
  GroupToken : TString;
  Name : TString;
  State : TString
}.

Record GroupsDataSourceModel : Type := mkGroups {
  Groups : list GroupResourceModel
}.

(** One element of [_embedded.groups]. *)
Record Group : Type := mkListed {
  g_GroupToken : string;
  g_Name : string;
  g_State : string
}.

Definition ListBody : Type := Decode (list Group).

(** The verb [%s] on an int. *)
Definition fmt_s_int (n : Z) : string :=
  ("%!s(int=" ++ Str.fmt_d n ++ ")")%string.

Definition listed (group : Group) : GroupResourceModel :=
  mkGroup (StringValue (g_GroupToken group)) (StringValue (g_Name group))
          (StringValue (g_State group)).

(** The loop of [Read]: one [append] for each group of the answer. *)
Definition collect (groups : list Group) : list GroupResourceModel :=
  List.fold_left (fun data group => data ++ [listed group]) groups [].

Section Handlers.
(** [http.NewRequestWithContext]: the request, or nil and an error that
    [Read] does not look at. *)
Variable new_request : string -> string -> error.
(** [d.client.Do], also on the nil request. *)
Variable send : option (Request unit) -> Outcome ListBody.

Definition Read_url (d : DataSource) : string :=
  (modeHost d ++ "/api/" ++ workspaceId d ++ "/groups")%string.

Definition Read (d : DataSource) : HandlerRun GroupsDataSourceModel :=
  let url := Read_url d in
  let httpReq :=
    match new_request "GET" url with
    | Some _ => None
    | None => Some (mkRequest "GET" url None)
    end in
  match send httpReq with
  | Fail cause =>
      failed _ "Client Error" ("Unable to list groups: " ++ cause)%string []
  | Ok httpResp =>
      if negb (StatusCode httpResp =? StatusOK)%Z then
        failed _ "Client Error"
          ("Unable to list groups: "
           ++ fmt_s_int (StatusCode httpResp))%string [0]
      else
        match Body httpResp with
        | Undecodable cause =>
            failed _ "Client Error"
              ("Error parsing response: " ++ cause)%string [0]
        | Decodes groups =>
            mkHandlerRun [] (StateSet (mkGroups (collect groups))) [0]
        end
  end.
End Handlers.

End GroupsDataSource.

(** ** Measures on runs *)

(** The seconds a run of [HttpRetry] spends asleep. *)
Definition slept (tr : list Retry.Event) : Z :=
  List.fold_right Z.add 0%Z (Retry.sleeps tr).

(** What a run of [HttpRetry] may do: build a GET for the address, or
    sleep for ten seconds. *)
Definition get_or_sleep (url : string) (e : Retry.Event) : Prop :=
  e = Retry.EvRequest "GET" url \/ e = Retry.EvSleep 10.

(** What a run of the loop of [HttpRetry] with [S k] iterations left comes
    to, after [i] rate-limited attempts. *)
Definition ends_on_last (B : Type) (upstream : nat -> Retry.Attempt B)
    (i k : nat) (run : Retry.Run B) : Prop :=
  let n := Retry.requests (Retry.trace run) in
  i < n <= i + S k /\
  Retry.limited_before upstream (n - 1) /\
  match Retry.exit run with
  | Retry.Returned a =>
      a = upstream (n - 1) /\
      exists r, Retry.att_resp a = Some r /\
                (StatusCode r <> StatusTooManyRequests \/ n = i + S k)
  | Retry.Panicked => Retry.att_resp (upstream (n - 1)) = None
  end.

(** How often the ticker fires among the signals. *)
Definition ticks (signals : list Deletion.Signal) : nat :=
  List.length
    (List.filter (fun s => match s with Deletion.Tick => true | _ => false end)
                 signals).

(** The secondary requests of a trace. *)
Definition listings (tr : list Deletion.Event) : nat :=
  List.length
    (List.filter (fun e => match e with Deletion.EvDo _ _ => true | _ => false end)
                 tr).

(** A poll that failed: no response at all, or a 200 whose body does not
    decode; with the text of the error [CheckDeletion] makes of it. *)
Definition poll_failed (o : Outcome Deletion.StateBody) (text : string)
    : Prop :=
  (exists cause,
     o = Fail cause /\
     text = ("error making GET request: " ++ cause)%string) \/
  (exists cause,
     o = Ok (mkResponse StatusOK (Undecodable cause)) /\
     text = ("error decoding response: " ++ cause)%string).

(** How a handler run ends: nothing reported and the state written, or one
    error reported and the state left alone. *)
Definition stores_or_reports (M : Type) (run : Tf.HandlerRun M) : Prop :=
  (Tf.diagnostics run = [] /\ Tf.state_op run <> Tf.Untouched) \/
  (exists d, Tf.diagnostics run = [d] /\ Tf.state_op run = Tf.Untouched).

(** The number of '/' in a text. *)
Fixpoint count_slash (s : string) : nat :=
  match s with
  | EmptyString => 0
  | String c s' =>
      (if Ascii.eqb c Str.slash then 1 else 0) + count_slash s'
  end.

(** * Properties *)

(** ** Strings and addresses *)

Section StrFacts.
Import Str.

Lemma strip_prefix_app (p s : string) :
  strip_prefix p (p ++ s)%string = Some s.
Proof.
  induction p as [|a p IH]; [reflexivity|].
  cbn. now rewrite Ascii.eqb_refl.
Qed.

Lemma strip_prefix_some (p : string) :
  forall s r, strip_prefix p s = Some r -> s = (p ++ r)%string.
Proof.
  induction p as [|a p IH]; intros s r H.
  - cbn in H. now injection H as ->.
  - destruct s as [|b s]; [discriminate H|]. cbn in H.
    destruct (Ascii.eqb_spec a b) as [->|]; [|discriminate H].
    cbn. f_equal. now apply IH.
Qed.

Lemma span_segment_app (seg : string) :
  forall rest, slash_free seg = true -> segment_end rest ->
               span_segment (seg ++ rest)%string = (seg, rest).
Proof.
  induction seg as [|c seg IH]; intros rest Hfree Hend.
  - destruct Hend as [-> | [s' ->]]; reflexivity.
  - cbn in Hfree. apply andb_true_iff in Hfree as [Hc Hfree].
    cbn. apply negb_true_iff in Hc. rewrite Hc.
    now rewrite IH.
Qed.

Lemma span_segment_spec (s : string) :
  forall seg rest, span_segment s = (seg, rest) ->
    s = (seg ++ rest)%string /\ slash_free seg = true /\ segment_end rest.
Proof.
  induction s as [|c s IH]; intros seg rest H.
  - cbn in H. injection H as <- <-. repeat split. now left.
  - cbn in H. destruct (Ascii.eqb_spec c slash) as [->|Hc].
    + injection H as <- <-. repeat split. right. now exists s.
    + destruct (span_segment s) as [seg' rest'] eqn:Hs.
      injection H as <- <-.
      destruct (IH seg' rest' eq_refl) as [-> [Hfree Hend]].
      cbn. repeat split; [|exact Hend].
      apply andb_true_iff. split; [|exact Hfree].
      apply negb_true_iff. now apply Ascii.eqb_neq.
Qed.

Lemma append_nil_r (s : string) : (s ++ "")%string = s.
Proof. induction s as [|c s IH]; [reflexivity|]. cbn. now rewrite IH. Qed.

Lemma append_assoc (a b c : string) :
  ((a ++ b) ++ c)%string = (a ++ (b ++ c))%string.
Proof. induction a as [|x a IH]; [reflexivity|]. cbn. now rewrite IH. Qed.

Lemma span_segment_free (s : string) :
  slash_free s = true -> span_segment s = (s, EmptyString).
Proof.
  intros H. rewrite <- (append_nil_r s) at 1.
  apply span_segment_app; [exact H | now left].
Qed.

Lemma is_empty_false (s : string) : is_empty s = false <-> s <> EmptyString.
Proof. destruct s; cbn; split; congruence. Qed.

(** A separator that starts with '/' is not met inside a segment. *)
Lemma before_first_segment (sep' seg : string) :
  forall r, slash_free seg = true ->
    before_first (String slash sep') (seg ++ r)%string
    = (seg ++ before_first (String slash sep') r)%string.
Proof.
  induction seg as [|c seg IH]; intros r Hfree; [reflexivity|].
  cbn in Hfree. apply andb_true_iff in Hfree as [Hc Hfree].
  apply negb_true_iff in Hc.
  cbn [append before_first strip_prefix].
  rewrite Ascii.eqb_sym, Hc. now rewrite IH.
Qed.

(** A pattern of two segments is a prefix of a text of two segments only
    when the first segments are the same. *)
Lemma strip_prefix_segment (p : string) :
  forall seg q r,
    slash_free p = true -> slash_free seg = true ->
    strip_prefix (p ++ String slash q)%string (seg ++ String slash r)%string
    <> None ->
    seg = p.
Proof.
  induction p as [|a p IH]; intros seg q r Hp Hseg H.
  - destruct seg as [|c seg]; [reflexivity|].
    cbn in Hseg. apply andb_true_iff in Hseg as [Hc _].
    apply negb_true_iff in Hc.
    cbn [append strip_prefix] in H. rewrite Ascii.eqb_sym, Hc in H.
    congruence.
  - cbn in Hp. apply andb_true_iff in Hp as [Ha Hp].
    apply negb_true_iff in Ha.
    destruct seg as [|c seg].
    + cbn [append strip_prefix] in H. rewrite Ha in H. congruence.
    + cbn in Hseg. apply andb_true_iff in Hseg as [_ Hseg].
      cbn [append strip_prefix] in H.
      destruct (Ascii.eqb_spec a c) as [->|]; [|congruence].
      f_equal. eapply IH; eassumption.
Qed.

(** Past a segment other than [p], the search for "/p/" goes on. *)
Lemma before_first_skip (p seg r : string) :
  slash_free p = true -> slash_free seg = true -> seg <> p ->
  before_first (String slash (p ++ String slash ""))
               (String slash (seg ++ String slash r))
  = String slash
      (seg ++ before_first (String slash (p ++ String slash ""))
                           (String slash r)).
Proof.
  intros Hp Hseg Hne.
  cbn [before_first strip_prefix]. rewrite Ascii.eqb_refl.
  destruct (strip_prefix (p ++ String slash "") (seg ++ String slash r))
    eqn:Hs.
  - exfalso. apply Hne. eapply strip_prefix_segment; try eassumption.
    rewrite Hs. discriminate.
  - f_equal. now apply before_first_segment.
Qed.
End StrFacts.

(** The pattern accepts exactly the addresses of collections, and the
    text in front of the first "/spaces/" of such an address is the
    workspace prefix unless the host or the workspace is itself named
    "spaces". *)

Section UrlFacts.
Import Str.

Lemma MatchString_collection_url (host ws tok : string) :
  slash_free host = true -> slash_free ws = true -> slash_free tok = true ->
  host <> "" -> ws <> "" -> tok <> "" ->
  Deletion.MatchString (Spec.collection_url host ws tok) = true.
Proof.
  intros Hh Hw Ht Nh Nw Nt.
  unfold Deletion.MatchString, Spec.collection_url.
  rewrite strip_prefix_app.
  rewrite span_segment_app; [|exact Hh|right; eexists; reflexivity].
  apply is_empty_false in Nh, Nw, Nt. rewrite Nh. cbn [negb andb].
  rewrite strip_prefix_app.
  rewrite span_segment_app; [|exact Hw|right; eexists; reflexivity].
  rewrite Nw. cbn [negb andb].
  rewrite strip_prefix_app.
  rewrite span_segment_free by exact Ht.
  rewrite Nt. reflexivity.
Qed.

Lemma MatchString_inv (url : string) :
  Deletion.MatchString url = true ->
  exists host ws tok,
    url = Spec.collection_url host ws tok /\
    slash_free host = true /\ slash_free ws = true /\
    slash_free tok = true /\
    host <> "" /\ ws <> "" /\ tok <> "".
Proof.
  unfold Deletion.MatchString. intros H.
  destruct (strip_prefix "https://" url) as [r1|] eqn:H1; [|discriminate].
  destruct (span_segment r1) as [host r2] eqn:S1.
  apply andb_true_iff in H as [Nh H]. apply negb_true_iff in Nh.
  destruct (strip_prefix "/api/" r2) as [r3|] eqn:H2; [|discriminate].
  destruct (span_segment r3) as [ws r4] eqn:S2.
  apply andb_true_iff in H as [Nw H]. apply negb_true_iff in Nw.
  destruct (strip_prefix "/spaces/" r4) as [r5|] eqn:H3; [|discriminate].
  destruct (span_segment r5) as [tok r6] eqn:S3.
  apply andb_true_iff in H as [Nt H]. apply negb_true_iff in Nt.
  destruct r6; [|discriminate].
  apply strip_prefix_some in H1, H2, H3.
  apply span_segment_spec in S1 as [E1 [F1 _]].
  apply span_segment_spec in S2 as [E2 [F2 _]].
  apply span_segment_spec in S3 as [E3 [F3 _]].
  exists host, ws, tok. unfold Spec.collection_url.
  rewrite append_nil_r in E3. subst.
  apply is_empty_false in Nh, Nw, Nt. repeat split; assumption.
Qed.

Lemma listing_url_parent (host ws tok : string) :
  slash_free host = true -> slash_free ws = true ->
  host <> "spaces" -> ws <> "spaces" ->
  Deletion.listing_url (Spec.collection_url host ws tok)
  = Spec.parent_listing host ws.
Proof.
  intros Hh Hw Nh Nw.
  unfold Deletion.listing_url, Spec.collection_url, Spec.parent_listing.
  change ("https://" ++ host ++ "/api/" ++ ws ++ "/spaces/" ++ tok)%string
    with ("https:" ++
          String slash ("" ++
          String slash (host ++
          String slash ("api" ++
          String slash (ws ++
          String slash ("spaces/" ++ tok))))))%string.
  change "/spaces/" with (String slash ("spaces" ++ String slash "")).
  rewrite before_first_segment by reflexivity.
  rewrite (@before_first_skip "spaces" "") by
    first [reflexivity | discriminate].
  rewrite (@before_first_skip "spaces" host) by
    first [assumption | reflexivity].
  rewrite (@before_first_skip "spaces" "api") by
    first [reflexivity | discriminate].
  rewrite (@before_first_skip "spaces" ws) by
    first [assumption | reflexivity].
  replace (before_first (String slash ("spaces" ++ String slash ""))
             (String slash ("spaces/" ++ tok))) with EmptyString
    by reflexivity.
  rewrite append_nil_r.
  cbn [append]. rewrite !append_assoc. cbn [append].
  reflexivity.
Qed.
End UrlFacts.


(** ** HttpRetry *)

Section RetryFacts.
Import Retry.
Variable B : Type.
Variable upstream : nat -> Attempt B.
Variable url : string.

Lemma requests_app (t1 t2 : list Event) :
  requests (t1 ++ t2) = requests t1 + requests t2.
Proof.
  unfold requests. now rewrite List.filter_app, List.length_app.
Qed.

Lemma requests_rounds (n : nat) : requests (rounds url n) = n.
Proof.
  induction n as [|n IH]; [reflexivity|].
  cbn [rounds]. rewrite requests_app, IH. reflexivity.
Qed.

Lemma sleeps_app (t1 t2 : list Event) :
  sleeps (t1 ++ t2) = sleeps t1 ++ sleeps t2.
Proof. unfold sleeps. apply List.flat_map_app. Qed.

Lemma sleeps_rounds (n : nat) : sleeps (rounds url n) = List.repeat sleep n.
Proof.
  induction n as [|n IH]; [reflexivity|].
  cbn [rounds]. rewrite sleeps_app, IH. reflexivity.
Qed.

(** [n] rate-limited attempts are [n] rounds of request and sleep. *)
Lemma HttpRetry_loop_limited (n : nat) :
  forall (m i : nat) (last : Attempt B) (tr : list Event),
    (forall j, j < n ->
       exists r, att_resp (upstream (i + j)) = Some r /\
                 StatusCode r = StatusTooManyRequests) ->
    HttpRetry_loop upstream url (n + m) i last tr =
    HttpRetry_loop upstream url m (i + n) (held upstream n i last)
                   (tr ++ rounds url n).
Proof.
  induction n as [|n IH]; intros m i last tr Hlim.
  - cbn. now rewrite Nat.add_0_r, List.app_nil_r.
  - destruct (Hlim 0) as [r [Hr Hs]]; [lia|].
    rewrite Nat.add_0_r in Hr.
    cbn [Nat.add HttpRetry_loop]. rewrite Hr, Hs. cbn [negb].
    change (negb (StatusTooManyRequests =? StatusTooManyRequests)%Z)
      with false. cbn iota.
    rewrite IH.
    + replace (S i + n) with (i + S n) by lia.
      f_equal.
      * destruct n as [|n']; cbn [held].
        -- now rewrite Nat.add_0_r.
        -- f_equal. lia.
      * cbn [rounds round]. rewrite <- !List.app_assoc. reflexivity.
    + intros j Hj. replace (S i + j) with (i + S j) by lia.
      apply Hlim. lia.
Qed.

(** The loop never sends more requests than it has iterations left. *)
Lemma HttpRetry_loop_bound (remaining : nat) :
  forall (i : nat) (last : Attempt B) (tr : list Event),
    requests (trace (HttpRetry_loop upstream url remaining i last tr))
    <= requests tr + remaining.
Proof.
  induction remaining as [|k IH]; intros i last tr; cbn [HttpRetry_loop].
  - cbn [trace]. lia.
  - destruct (att_resp (upstream i)) as [r|]; cbn [trace].
    + destruct (negb (StatusCode r =? StatusTooManyRequests)%Z);
        cbn [trace].
      * rewrite requests_app.
        change (requests [EvRequest MethodGet url]) with 1. lia.
      * etransitivity; [apply IH|].
        rewrite !requests_app.
        change (requests [EvRequest MethodGet url]) with 1.
        change (requests [EvSleep sleep]) with 0. lia.
    + rewrite requests_app.
      change (requests [EvRequest MethodGet url]) with 1. lia.
Qed.

(** Every wait of the loop lasts [sleep] seconds. *)
Lemma HttpRetry_loop_sleeps (remaining : nat) :
  forall (i : nat) (last : Attempt B) (tr : list Event),
    List.Forall (fun s => s = sleep) (sleeps tr) ->
    List.Forall (fun s => s = sleep)
      (sleeps (trace (HttpRetry_loop upstream url remaining i last tr))).
Proof.
  induction remaining as [|k IH]; intros i last tr Htr;
    cbn [HttpRetry_loop].
  - exact Htr.
  - destruct (att_resp (upstream i)) as [r|]; cbn [trace].
    + destruct (negb (StatusCode r =? StatusTooManyRequests)%Z);
        cbn [trace].
      * rewrite sleeps_app. cbn. now rewrite List.app_nil_r.
      * apply IH. rewrite !sleeps_app. cbn.
        rewrite List.app_nil_r. apply List.Forall_app. split; auto.
    + rewrite sleeps_app. cbn. now rewrite List.app_nil_r.
Qed.
End RetryFacts.

(** At most nine requests, and waits of ten seconds only, whatever the
    upstream answers. *)
Lemma HttpRetry_bounded (B : Type) (ctx : Retry.Context)
    (method url : string) (body : option string)
    (upstream : nat -> Retry.Attempt B) :
  Retry.requests (Retry.trace (Retry.HttpRetry ctx method url body upstream))
    <= 9 /\
  List.Forall (fun s => s = 10%Z)
    (Retry.sleeps
       (Retry.trace (Retry.HttpRetry ctx method url body upstream))).
Proof.
  split.
  - unfold Retry.HttpRetry.
    apply (HttpRetry_loop_bound upstream url Retry.attempts 0
             (Retry.mkAttempt None None) []).
  - unfold Retry.HttpRetry. apply HttpRetry_loop_sleeps. constructor.
Qed.




(** ** CheckDeletion *)

Section DeletionFacts.
Import Deletion.
Variable resourceURL : string.
Variable env : Env.

Lemma deletion_requests_app (t1 t2 : list Event) :
  requests (t1 ++ t2) = requests t1 ++ requests t2.
Proof. apply List.filter_app. Qed.

Lemma requests_closes (d : list nat) :
  requests (List.map EvClose d ++ [EvTickerStop]) = [].
Proof. induction d as [|k d IH]; [reflexivity | exact IH]. Qed.

Lemma requests_active_rounds (k : nat) :
  forall n, requests (active_rounds resourceURL env n k) =
            List.repeat (EvGet resourceURL) k.
Proof.
  induction k as [|k IH]; intros n; [reflexivity|].
  unfold active_rounds. cbn [List.seq List.flat_map].
  rewrite deletion_requests_app. cbn [List.repeat].
  change (requests (active_round resourceURL (reported env n)))
    with [EvGet resourceURL].
  cbn [List.app]. f_equal. apply IH.
Qed.

(** A poll that finds the resource still active leaves the loop waiting
    for the next signal. *)
Lemma CheckDeletion_loop_active_step (rest : list Signal) (n : nat)
    (deferred : list nat) (tr : list Event) :
  still_active (upstream env n) ->
  CheckDeletion_loop resourceURL env (Tick :: rest) n deferred tr =
  CheckDeletion_loop resourceURL env rest (S n) (n :: deferred)
    (tr ++ active_round resourceURL (reported env n)).
Proof.
  intros [state [Hup Hstate]].
  cbn [CheckDeletion_loop]. unfold reported. rewrite Hup.
  cbn [StatusCode Body].
  change (StatusOK =? StatusNotFound)%Z with false.
  change (StatusOK =? StatusForbidden)%Z with false.
  change (StatusOK =? StatusOK)%Z with true. cbn iota.
  apply String.eqb_neq in Hstate. rewrite Hstate.
  unfold active_round. now rewrite <- List.app_assoc.
Qed.

Lemma CheckDeletion_loop_active (k : nat) :
  forall (rest : list Signal) (n : nat) (deferred : list nat)
         (tr : list Event),
    (forall i, i < k -> still_active (upstream env (n + i))) ->
    CheckDeletion_loop resourceURL env (List.repeat Tick k ++ rest)
      n deferred tr =
    CheckDeletion_loop resourceURL env rest (n + k)
      (List.rev (List.seq n k) ++ deferred)
      (tr ++ active_rounds resourceURL env n k).
Proof.
  induction k as [|k IH]; intros rest n deferred tr Hact.
  - cbn. now rewrite Nat.add_0_r, List.app_nil_r.
  - cbn [List.repeat List.app].
    rewrite CheckDeletion_loop_active_step
      by (specialize (Hact 0); rewrite Nat.add_0_r in Hact;
          apply Hact; lia).
    rewrite IH.
    + replace (S n + k) with (n + S k) by lia.
      unfold active_rounds. cbn [List.seq List.flat_map List.rev].
      rewrite <- !List.app_assoc. reflexivity.
    + intros i Hi. replace (S n + i) with (n + S i) by lia.
      apply Hact. lia.
Qed.

Lemma CheckDeletion_active (k : nat) (rest : list Signal) :
  active_before env k ->
  CheckDeletion resourceURL env (List.repeat Tick k ++ rest) =
  CheckDeletion_loop resourceURL env rest k
    (List.rev (List.seq 0 k)) (active_rounds resourceURL env 0 k).
Proof.
  intros Hact. unfold CheckDeletion.
  rewrite CheckDeletion_loop_active by (intros i Hi; apply Hact; exact Hi).
  now rewrite List.app_nil_r.
Qed.

Lemma requests_returned (d : list nat) (tr : list Event) :
  requests (tr ++ List.map EvClose d ++ [EvTickerStop]) = requests tr.
Proof.
  now rewrite deletion_requests_app, requests_closes, List.app_nil_r.
Qed.

(** The timer ends the wait: once it is among the signals, the loop
    returns. *)
Lemma CheckDeletion_loop_returns (signals : list Signal) :
  forall (n : nat) (deferred : list nat) (tr : list Event),
    List.In Timeout signals ->
    exists r, CheckDeletion_loop resourceURL env signals n deferred tr
              = Some r.
Proof.
  induction signals as [|sig rest IH]; intros n deferred tr Hin;
    [contradiction|].
  assert (Hrest : sig <> Timeout -> List.In Timeout rest)
    by (intros Hne; destruct Hin as [E|Hin]; [congruence|exact Hin]).
  destruct sig; cbn [CheckDeletion_loop].
  - eexists; reflexivity.
  - destruct (upstream env n) as [resp|cause]; [|eexists; reflexivity].
    destruct (StatusCode resp =? StatusNotFound)%Z; [eexists; reflexivity|].
    destruct (StatusCode resp =? StatusForbidden)%Z.
    { destruct (MatchString resourceURL); [|eexists; reflexivity].
      destruct (new_request env (listing_url resourceURL));
        [eexists; reflexivity|].
      destruct (upstream env (S n)) as [second|cause];
        [|eexists; reflexivity].
      destruct (negb (StatusCode second =? StatusOK)%Z);
        eexists; reflexivity. }
    destruct (StatusCode resp =? StatusOK)%Z; [|eexists; reflexivity].
    destruct (Body resp) as [cause|state]; [eexists; reflexivity|].
    destruct (String.eqb state "soft_deleted"); [eexists; reflexivity|].
    apply IH, Hrest. discriminate.
  - apply IH, Hrest. discriminate.
Qed.

End DeletionFacts.

(** ** The verifier against the design document's state machine *)

Section Refinement.
Import Deletion.
Variable resourceURL : string.
Variable env : Env.

Lemma run_terminal (signals : list Signal) :
  forall (n : nat) (s : Spec.State),
    s <> Spec.Polling -> Spec.run resourceURL env signals n s = s.
Proof.
  induction signals as [|sig rest IH]; intros n s Hs; [reflexivity|].
  destruct sig; cbn [Spec.run]; destruct s; try congruence;
    cbn [Spec.transition]; apply IH; discriminate.
Qed.

Lemma agrees_errored (d : list nat) (tr : list Event) (e : string)
    (rest : list Signal) (n : nat) :
  e <> timed_out ->
  agrees (leave d tr (Some e))
         (Spec.run resourceURL env rest n Spec.Errored).
Proof.
  intros He. cbn. right. split; [exact He|].
  apply run_terminal. discriminate.
Qed.

Lemma agrees_confirmed (d : list nat) (tr : list Event)
    (rest : list Signal) (n : nat) :
  agrees (leave d tr None)
         (Spec.run resourceURL env rest n Spec.ConfirmedDeleted).
Proof. cbn. apply run_terminal. discriminate. Qed.

Ltac other_text :=
  let H := fresh in
  intros H; unfold timed_out, list_failed in H; cbn in H; discriminate H.

Theorem CheckDeletion_loop_refines (signals : list Signal) :
  forall (n : nat) (deferred : list nat) (tr : list Event),
    agrees (CheckDeletion_loop resourceURL env signals n deferred tr)
           (Spec.run resourceURL env signals n Spec.Polling).
Proof.
  induction signals as [|sig rest IH]; intros n deferred tr;
    [reflexivity|].
  destruct sig; cbn [CheckDeletion_loop Spec.run].
  - cbn [Spec.transition]. cbn. left. split; [reflexivity|].
    apply run_terminal. discriminate.
  - unfold Spec.observe.
    unfold StatusNotFound, StatusForbidden, StatusOK.
    destruct (upstream env n) as [resp|cause].
    2:{ apply agrees_errored. other_text. }
    destruct (Z.eqb_spec (StatusCode resp) 404) as [E404|E404].
    { assert (H3 : (StatusCode resp =? 403)%Z = false)
        by (apply Z.eqb_neq; lia).
      assert (H2 : (StatusCode resp =? 200)%Z = false)
        by (apply Z.eqb_neq; lia).
      rewrite H3, H2. cbn [Spec.transition].
      apply Z.eqb_eq in E404. rewrite E404. apply agrees_confirmed. }
    destruct (Z.eqb_spec (StatusCode resp) 403) as [E403|E403].
    { cbn [Spec.transition].
      destruct (MatchString resourceURL).
      - destruct (new_request env (listing_url resourceURL)) as [cause|].
        + apply agrees_errored. other_text.
        + destruct (upstream env (S n)) as [second|cause].
          * destruct (Z.eqb_spec (StatusCode second) 200) as [E|E];
              cbn [negb].
            -- apply agrees_confirmed.
            -- apply agrees_errored. other_text.
          * apply agrees_errored. other_text.
      - apply agrees_errored. other_text. }
    destruct (Z.eqb_spec (StatusCode resp) 200) as [E200|E200].
    { destruct (Body resp) as [cause|state].
      - apply agrees_errored. other_text.
      - cbn [Spec.transition].
        change (200 =? 404)%Z with false.
        change (200 =? 200)%Z with true. cbn iota.
        destruct (String.eqb state "soft_deleted").
        + apply agrees_confirmed.
        + apply IH. }
    cbn [Spec.transition].
    apply Z.eqb_neq in E404, E200. rewrite E404, E200.
    apply agrees_errored. other_text.
  - apply IH.
Qed.
End Refinement.

(** C3.  After any number of polls that found the resource still active,
    the first poll answered 404, or answered 200 with state
    "soft_deleted", makes [CheckDeletion] return nil at that tick, one GET
    per tick having been sent; and as long as the polls are answered 200
    with another state it has not returned: it waits for the next tick. *)
Theorem CheckDeletion_confirms_deletion :
  forall (resourceURL : string) (env : Deletion.Env) (k : nat)
         (rest : list Deletion.Signal) (resp : Response Deletion.StateBody),
    Deletion.active_before env k ->
    Deletion.upstream env k = Ok resp ->
    StatusCode resp = StatusNotFound \/
    (StatusCode resp = StatusOK /\ Body resp = Decodes "soft_deleted") ->
    (exists tr,
       Deletion.CheckDeletion resourceURL env
         (List.repeat Deletion.Tick k ++ Deletion.Tick :: rest)
       = Some (None, tr) /\
       Deletion.requests tr =
         List.repeat (Deletion.EvGet resourceURL) (S k)) /\
    Deletion.CheckDeletion resourceURL env (List.repeat Deletion.Tick k)
    = None.
Proof.
  intros resourceURL env k rest resp Hact Hup Hresp. split.
  - rewrite CheckDeletion_active by exact Hact.
    cbn [Deletion.CheckDeletion_loop]. rewrite Hup.
    destruct Hresp as [H404 | [H200 Hbody]].
    + rewrite H404.
      change (StatusNotFound =? StatusNotFound)%Z with true. cbn iota.
      eexists. split; [reflexivity|].
      rewrite requests_returned, !deletion_requests_app.
      rewrite requests_active_rounds. cbn [Deletion.requests List.filter
        Deletion.is_request List.app].
      rewrite ?List.app_nil_r. now rewrite <- List.repeat_cons.
    + rewrite H200, Hbody.
      change (StatusOK =? StatusNotFound)%Z with false.
      change (StatusOK =? StatusForbidden)%Z with false.
      change (StatusOK =? StatusOK)%Z with true.
      change (String.eqb "soft_deleted" "soft_deleted") with true.
      cbn iota.
      eexists. split; [reflexivity|].
      rewrite requests_returned, !deletion_requests_app.
      rewrite requests_active_rounds. cbn [Deletion.requests List.filter
        Deletion.is_request List.app].
      rewrite ?List.app_nil_r. now rewrite <- List.repeat_cons.
  - rewrite <- (List.app_nil_r (List.repeat Deletion.Tick k)).
    rewrite CheckDeletion_active by exact Hact. reflexivity.
Qed.

Lemma active_then_before (k : nat) (o : Outcome Deletion.StateBody) :
  Deletion.active_before (Deletion.active_then k o) k.
Proof.
  intros i Hi. exists "active".
  unfold Deletion.active_then. cbn [Deletion.upstream].
  destruct (Nat.ltb_spec i k); [|lia].
  split; [reflexivity | discriminate].
Qed.

(** A poll answered "active", then a 404 at the second tick. *)
Lemma CheckDeletion_confirms_deletion_witness :
  let env := Deletion.active_then 1 (Ok (mkResponse StatusNotFound (Decodes ""))) in
  (exists tr,
     Deletion.CheckDeletion "https://host/api/ws1/groups/g1" env
       (List.repeat Deletion.Tick 1 ++ Deletion.Tick :: [Deletion.Timeout])
     = Some (None, tr) /\
     Deletion.requests tr =
       List.repeat (Deletion.EvGet "https://host/api/ws1/groups/g1") 2) /\
  Deletion.CheckDeletion "https://host/api/ws1/groups/g1" env
    (List.repeat Deletion.Tick 1) = None.
Proof.
  intros env.
  apply (@CheckDeletion_confirms_deletion "https://host/api/ws1/groups/g1"
           env 1 [Deletion.Timeout]
           (mkResponse StatusNotFound (Decodes ""))).
  - apply active_then_before.
  - reflexivity.
  - left. reflexivity.
Defined.

(** C4.  When every poll before the timer fires is answered 200 with a
    state other than "soft_deleted", [CheckDeletion] returns the timeout
    error, and the machine of the design document is in [TimedOut]; and
    whenever [CheckDeletion] returns, it returns an error exactly when
    that machine did not reach [ConfirmedDeleted]. *)
Theorem CheckDeletion_times_out :
  forall (resourceURL : string) (env : Deletion.Env),
    (forall (k : nat) (rest : list Deletion.Signal),
       Deletion.active_before env k ->
       let signals := List.repeat Deletion.Tick k ++ Deletion.Timeout :: rest in
       (exists tr,
          Deletion.CheckDeletion resourceURL env signals
          = Some (Some Deletion.timed_out, tr) /\
          Deletion.requests tr =
            List.repeat (Deletion.EvGet resourceURL) k) /\
       Spec.run resourceURL env signals 0 Spec.Polling = Spec.TimedOut) /\
    (forall (signals : list Deletion.Signal) (e : error)
            (tr : list Deletion.Event),
       Deletion.CheckDeletion resourceURL env signals = Some (e, tr) ->
       (e <> None <->
        Spec.run resourceURL env signals 0 Spec.Polling
        <> Spec.ConfirmedDeleted)).
Proof.
  intros resourceURL env. split.
  - intros k rest Hact signals.
    assert (Hrun : exists tr,
      Deletion.CheckDeletion resourceURL env signals
      = Some (Some Deletion.timed_out, tr) /\
      Deletion.requests tr = List.repeat (Deletion.EvGet resourceURL) k).
    { subst signals. rewrite CheckDeletion_active by exact Hact.
      cbn [Deletion.CheckDeletion_loop].
      eexists. split; [reflexivity|].
      rewrite requests_returned.
      apply requests_active_rounds. }
    split; [exact Hrun|].
    destruct Hrun as [tr [Hret _]].
    pose proof (CheckDeletion_loop_refines resourceURL env signals 0 [] [])
      as Hag.
    unfold Deletion.CheckDeletion in Hret. rewrite Hret in Hag.
    cbn in Hag. destruct Hag as [[_ H] | [H _]]; [exact H | congruence].
  - intros signals e tr Hret.
    pose proof (CheckDeletion_loop_refines resourceURL env signals 0 [] [])
      as Hag.
    unfold Deletion.CheckDeletion in Hret. rewrite Hret in Hag.
    destruct e as [msg|]; cbn in Hag.
    + split; [|discriminate].
      intros _. destruct Hag as [[_ H] | [_ H]]; rewrite H; discriminate.
    + split; [congruence|]. intros H. contradiction.
Qed.

(** Five polls answered "active" and then the timer, on both parts. *)
Lemma CheckDeletion_times_out_witness :
  let url := "https://host/api/ws1/groups/g1" in
  let env := Deletion.active_then 5 (Ok (mkResponse StatusOK (Decodes "active"))) in
  let signals := List.repeat Deletion.Tick 5 ++ [Deletion.Timeout] in
  ((exists tr,
      Deletion.CheckDeletion url env signals
      = Some (Some Deletion.timed_out, tr) /\
      Deletion.requests tr = List.repeat (Deletion.EvGet url) 5) /\
   Spec.run url env signals 0 Spec.Polling = Spec.TimedOut) /\
  (Some Deletion.timed_out <> None <->
   Spec.run url env signals 0 Spec.Polling <> Spec.ConfirmedDeleted).
Proof.
  intros url env signals.
  destruct (CheckDeletion_times_out url env) as [Hto Hiff].
  split.
  - apply (Hto 5 []). apply active_then_before.
  - apply (Hiff signals (Some Deletion.timed_out)
             (snd (match Deletion.CheckDeletion url env signals with
                   | Some r => r
                   | None => (None, [])
                   end))).
    reflexivity.
Defined.

(** C6.  A poll answered with a status other than 200, 403 and 404 makes
    [CheckDeletion] return, at that tick, the error that names the status;
    the signals still to come play no part, and no request follows the
    GET of that tick. *)
Theorem CheckDeletion_unexpected_status :
  forall (resourceURL : string) (env : Deletion.Env) (k : nat)
         (rest : list Deletion.Signal) (resp : Response Deletion.StateBody),
    Deletion.active_before env k ->
    Deletion.upstream env k = Ok resp ->
    StatusCode resp <> StatusOK ->
    StatusCode resp <> StatusForbidden ->
    StatusCode resp <> StatusNotFound ->
    exists tr,
      Deletion.CheckDeletion resourceURL env
        (List.repeat Deletion.Tick k ++ Deletion.Tick :: rest)
      = Some (Some ("unexpected status or state: "
                    ++ Str.fmt_d (StatusCode resp)
                    ++ ", not retrying")%string, tr) /\
      Deletion.requests tr =
        List.repeat (Deletion.EvGet resourceURL) (S k) /\
      Spec.run resourceURL env
        (List.repeat Deletion.Tick k ++ Deletion.Tick :: rest) 0
        Spec.Polling = Spec.Errored.
Proof.
  intros resourceURL env k rest resp Hact Hup H200 H403 H404.
  assert (Hrun : exists tr,
    Deletion.CheckDeletion resourceURL env
      (List.repeat Deletion.Tick k ++ Deletion.Tick :: rest)
    = Some (Some ("unexpected status or state: "
                  ++ Str.fmt_d (StatusCode resp)
                  ++ ", not retrying")%string, tr) /\
    Deletion.requests tr = List.repeat (Deletion.EvGet resourceURL) (S k)).
  { rewrite CheckDeletion_active by exact Hact.
    cbn [Deletion.CheckDeletion_loop]. rewrite Hup.
    apply Z.eqb_neq in H200, H403, H404. rewrite H200, H403, H404.
    eexists. split; [reflexivity|].
    rewrite requests_returned, !deletion_requests_app.
    rewrite requests_active_rounds. cbn [Deletion.requests List.filter
      Deletion.is_request List.app].
    rewrite ?List.app_nil_r. now rewrite <- List.repeat_cons. }
  destruct Hrun as [tr [Hret Hreq]]. exists tr.
  split; [exact Hret|]. split; [exact Hreq|].
  pose proof (CheckDeletion_loop_refines resourceURL env
    (List.repeat Deletion.Tick k ++ Deletion.Tick :: rest) 0 [] []) as Hag.
  unfold Deletion.CheckDeletion in Hret. rewrite Hret in Hag.
  cbn in Hag. destruct Hag as [[H _] | [_ H]]; [discriminate H | exact H].
Qed.

(** Two polls answered "active", then a 500. *)
Lemma CheckDeletion_unexpected_status_witness :
  let url := "https://host/api/ws1/groups/g1" in
  let env :=
    Deletion.active_then 2 (Ok (mkResponse StatusInternalServerError (Decodes ""))) in
  exists tr,
    Deletion.CheckDeletion url env
      (List.repeat Deletion.Tick 2 ++ Deletion.Tick :: [Deletion.Tick])
    = Some (Some "unexpected status or state: 500, not retrying", tr) /\
    Deletion.requests tr = List.repeat (Deletion.EvGet url) 3 /\
    Spec.run url env
      (List.repeat Deletion.Tick 2 ++ Deletion.Tick :: [Deletion.Tick]) 0
      Spec.Polling = Spec.Errored.
Proof.
  intros url env.
  apply (@CheckDeletion_unexpected_status url env 2 [Deletion.Tick]
           (mkResponse StatusInternalServerError (Decodes ""))).
  - apply active_then_before.
  - reflexivity.
  - discriminate.
  - discriminate.
  - discriminate.
Defined.

(** ** The 403 workaround *)

(** A poll answered 403.  When the address does not match, the loop
    returns the error that names the status and sends nothing more.  When
    it matches and the listing request can be built, one GET of
    [listing_url] follows, and the loop returns nil exactly when that call
    is answered 200. *)
Lemma CheckDeletion_forbidden :
  forall (resourceURL : string) (env : Deletion.Env) (k : nat)
         (rest : list Deletion.Signal) (resp : Response Deletion.StateBody),
    Deletion.active_before env k ->
    Deletion.upstream env k = Ok resp ->
    StatusCode resp = StatusForbidden ->
    let signals := List.repeat Deletion.Tick k ++ Deletion.Tick :: rest in
    (Deletion.MatchString resourceURL = false ->
     exists tr,
       Deletion.CheckDeletion resourceURL env signals
       = Some (Some "unexpected status: 403, not retrying", tr) /\
       Deletion.requests tr =
         List.repeat (Deletion.EvGet resourceURL) (S k)) /\
    (Deletion.MatchString resourceURL = true ->
     Deletion.new_request env (Deletion.listing_url resourceURL) = None ->
     exists e tr,
       Deletion.CheckDeletion resourceURL env signals = Some (e, tr) /\
       Deletion.requests tr =
         List.repeat (Deletion.EvGet resourceURL) (S k)
         ++ [Deletion.EvDo MethodGet (Deletion.listing_url resourceURL)] /\
       (e = None <->
        exists second, Deletion.upstream env (S k) = Ok second /\
                       StatusCode second = StatusOK)).
Proof.
  intros resourceURL env k rest resp Hact Hup H403 signals. subst signals.
  rewrite CheckDeletion_active by exact Hact.
  cbn [Deletion.CheckDeletion_loop]. rewrite Hup, H403.
  change (StatusForbidden =? StatusNotFound)%Z with false.
  change (StatusForbidden =? StatusForbidden)%Z with true. cbn iota.
  split.
  - intros Hm. rewrite Hm. eexists. split; [reflexivity|].
    rewrite requests_returned, !deletion_requests_app.
    rewrite requests_active_rounds. cbn [Deletion.requests List.filter
      Deletion.is_request List.app].
    now rewrite <- List.repeat_cons.
  - intros Hm Hnew. rewrite Hm, Hnew.
    assert (Hreq : forall d,
      Deletion.requests
        (((Deletion.active_rounds resourceURL env 0 k
           ++ [Deletion.EvGet resourceURL])
          ++ [Deletion.EvDo MethodGet (Deletion.listing_url resourceURL)])
         ++ List.map Deletion.EvClose d ++ [Deletion.EvTickerStop])
      = List.repeat (Deletion.EvGet resourceURL) (S k)
        ++ [Deletion.EvDo MethodGet (Deletion.listing_url resourceURL)]).
    { intros d. rewrite requests_returned, !deletion_requests_app.
      rewrite requests_active_rounds. cbn [Deletion.requests List.filter
        Deletion.is_request List.app].
      now rewrite <- List.repeat_cons. }
    destruct (Deletion.upstream env (S k)) as [second|cause].
    + destruct (Z.eqb_spec (StatusCode second) StatusOK) as [E|E];
        cbn [negb]; do 2 eexists; (split; [reflexivity|]);
        (split; [apply Hreq|]).
      * split; [|reflexivity]. intros _. exists second. now split.
      * split; [discriminate|]. intros [s [Hs Hc]].
        injection Hs as <-. contradiction.
    + do 2 eexists. split; [reflexivity|]. split; [apply Hreq|].
      split; [discriminate|]. intros [s [Hs _]]. discriminate Hs.
Qed.

(** C5.  The address of collection "tok1" in a workspace named "spaces"
    matches the pattern, and a 403 on it is followed by one secondary GET
    whose 200 makes [CheckDeletion] return nil.  The text before the first
    "/spaces/" stops in front of the workspace, though, so that GET goes to
    "https://app.mode.com/api/spaces?filter=all" and not to the listing of
    the workspace's collections, which is the address [Read] builds for
    the same workaround. *)
Theorem CheckDeletion_lists_beside_parent :
  let url := Spec.collection_url "app.mode.com" "spaces" "tok1" in
  let env :=
    Deletion.mkEnv
      (fun i => match i with
                | O => Ok (mkResponse StatusForbidden (Decodes ""))
                | S _ => Ok (mkResponse StatusOK (Decodes ""))
                end)
      (fun _ => None) in
  Deletion.MatchString url = true /\
  Deletion.CheckDeletion url env [Deletion.Tick]
  = Some (None,
          [Deletion.EvGet "https://app.mode.com/api/spaces/spaces/tok1";
           Deletion.EvDo "GET" "https://app.mode.com/api/spaces?filter=all";
           Deletion.EvClose 1; Deletion.EvClose 0;
           Deletion.EvTickerStop]) /\
  Spec.parent_listing "app.mode.com" "spaces"
  = "https://app.mode.com/api/spaces/spaces?filter=all" /\
  CollectionResource.Read_listing_url
    (CollectionResource.mkResource "https://app.mode.com" "spaces")
  = Spec.parent_listing "app.mode.com" "spaces" /\
  Deletion.listing_url url <> Spec.parent_listing "app.mode.com" "spaces".
Proof.
  cbv zeta. repeat split. discriminate.
Qed.

(** The same on a host named "spaces". *)
Lemma CheckDeletion_lists_beside_parent_host :
  Deletion.MatchString (Spec.collection_url "spaces" "ws1" "tok1") = true /\
  Deletion.listing_url (Spec.collection_url "spaces" "ws1" "tok1")
  = "https://spaces?filter=all".
Proof. split; reflexivity. Qed.

(** The example of the design document. *)
Lemma CheckDeletion_workaround_example :
  let url := "https://host/api/ws1/spaces/tok1" in
  let env :=
    Deletion.mkEnv
      (fun i => match i with
                | O => Ok (mkResponse StatusForbidden (Decodes ""))
                | S _ => Ok (mkResponse StatusOK (Decodes ""))
                end)
      (fun _ => None) in
  Deletion.CheckDeletion url env [Deletion.Tick]
  = Some (None,
          [Deletion.EvGet url;
           Deletion.EvDo "GET" "https://host/api/ws1/spaces?filter=all";
           Deletion.EvClose 1; Deletion.EvClose 0;
           Deletion.EvTickerStop]) /\
  Deletion.CheckDeletion "https://host/api/ws1/groups/g1" env
    [Deletion.Tick]
  = Some (Some "unexpected status: 403, not retrying",
          [Deletion.EvGet "https://host/api/ws1/groups/g1";
           Deletion.EvClose 0; Deletion.EvTickerStop]).
Proof. split; reflexivity. Qed.

(** ** Cancellation *)

Lemma CheckDeletion_loop_received (resourceURL : string)
    (env : Deletion.Env) (signals : list Deletion.Signal) :
  forall (n : nat) (deferred : list nat) (tr : list Deletion.Event),
    Deletion.CheckDeletion_loop resourceURL env signals n deferred tr =
    Deletion.CheckDeletion_loop resourceURL env
      (List.filter Deletion.received signals) n deferred tr.
Proof.
  induction signals as [|sig rest IH]; intros n deferred tr;
    [reflexivity|].
  destruct sig; cbn [List.filter Deletion.received
                     Deletion.CheckDeletion_loop].
  - reflexivity.
  - destruct (Deletion.upstream env n) as [resp|cause]; [|reflexivity].
    destruct (StatusCode resp =? StatusNotFound)%Z; [reflexivity|].
    destruct (StatusCode resp =? StatusForbidden)%Z; [reflexivity|].
    destruct (StatusCode resp =? StatusOK)%Z; [|reflexivity].
    destruct (Body resp) as [cause|state]; [reflexivity|].
    destruct (String.eqb state "soft_deleted"); [reflexivity|].
    apply IH.
  - apply IH.
Qed.



(** ** Response bodies *)

Section CloseFacts.
Import Deletion.
Variable resourceURL : string.
Variable env : Env.

Lemma closes_app (j : nat) (t1 t2 : list Event) :
  closes j (t1 ++ t2) = closes j t1 + closes j t2.
Proof. unfold closes. now rewrite List.filter_app, List.length_app. Qed.

Lemma closes_deferred (j k : nat) (d : list nat) :
  closes j (List.map EvClose (k :: d)) =
  (if Nat.eqb k j then 1 else 0) + closes j (List.map EvClose d).
Proof.
  unfold closes. cbn [List.map List.filter].
  destruct (Nat.eqb k j); reflexivity.
Qed.

Lemma closes_leave (j : nat) (d : list nat) (tr : list Event) :
  closes j (tr ++ List.map EvClose d ++ [EvTickerStop]) =
  closes j tr + closes j (List.map EvClose d).
Proof. rewrite !closes_app. cbn. lia. Qed.

(** A return after [ex] more events, none of them a close, with the closes
    [new] deferred since: every answered request was closed once. *)
Lemma leave_closes_once (n : nat) (d new dX : list nat)
    (tr ex trX : list Event) (e : error) (r : error * list Event) :
  pending env n d tr ->
  leave dX trX e = Some r ->
  trX = tr ++ ex ->
  dX = new ++ d ->
  (forall j, closes j ex = 0) ->
  (forall j, closes j (List.map EvClose new) =
             if Nat.leb n j
                && Nat.ltb j (n + List.length (requests ex))
                && answered env j
             then 1 else 0) ->
  forall j, closes j (snd r) = if acquired env (snd r) j then 1 else 0.
Proof.
  intros [Hnone Hsent Hone Hall] Hr -> -> Hex Hnew j.
  injection Hr as <-. cbn [snd].
  unfold acquired.
  rewrite closes_leave, requests_returned, closes_app, Hnone, Hex.
  rewrite List.map_app, closes_app, Hnew, Hone.
  rewrite deletion_requests_app, List.length_app, Hsent.
  destruct (Nat.ltb_spec j n) as [Hj|Hj].
  - destruct (Nat.leb_spec n j); [lia|].
    destruct (Nat.ltb_spec j (n + List.length (requests ex))); [|lia].
    rewrite (Hall j Hj). reflexivity.
  - destruct (Nat.leb_spec n j); [|lia]. cbn [andb].
    destruct (Nat.ltb j (n + List.length (requests ex)) && answered env j);
      reflexivity.
Qed.

(** The closes a return finds deferred on top of the [n] older ones. *)
Lemma closes_new_none (n m : nat) :
  (forall i, n <= i < n + m -> answered env i = false) ->
  forall j, closes j (List.map EvClose []) =
            if Nat.leb n j && Nat.ltb j (n + m) && answered env j
            then 1 else 0.
Proof.
  intros Hf j. change (closes j (List.map EvClose [])) with 0.
  destruct (Nat.leb_spec n j); [|reflexivity].
  destruct (Nat.ltb_spec j (n + m)); [|reflexivity].
  rewrite Hf by lia. reflexivity.
Qed.

Lemma closes_new_one (n m : nat) :
  answered env n = true ->
  (forall i, n < i < n + S m -> answered env i = false) ->
  forall j, closes j (List.map EvClose [n]) =
            if Nat.leb n j && Nat.ltb j (n + S m) && answered env j
            then 1 else 0.
Proof.
  intros Hn Hf j. rewrite closes_deferred. cbn [List.map].
  change (closes j []) with 0.
  destruct (Nat.eqb_spec n j) as [<-|Hne].
  - rewrite Nat.leb_refl, Hn.
    destruct (Nat.ltb_spec n (n + S m)); [reflexivity|lia].
  - destruct (Nat.leb_spec n j); [|reflexivity].
    destruct (Nat.ltb_spec j (n + S m)); [|reflexivity].
    rewrite Hf by lia. reflexivity.
Qed.

Lemma closes_new_two (n : nat) :
  answered env n = true -> answered env (S n) = true ->
  forall j, closes j (List.map EvClose [S n; n]) =
            if Nat.leb n j && Nat.ltb j (n + 2) && answered env j
            then 1 else 0.
Proof.
  intros Hn Hs j. rewrite !closes_deferred. cbn [List.map].
  change (closes j []) with 0.
  destruct (Nat.eqb_spec (S n) j) as [E1|Hne1];
    destruct (Nat.eqb_spec n j) as [E2|Hne2]; try lia.
  - subst j. destruct (Nat.leb_spec n (S n)); [|lia].
    destruct (Nat.ltb_spec (S n) (n + 2)); [|lia]. now rewrite Hs.
  - subst j. rewrite Nat.leb_refl, Hn.
    destruct (Nat.ltb_spec n (n + 2)); [reflexivity|lia].
  - destruct (Nat.leb_spec n j); [|reflexivity].
    destruct (Nat.ltb_spec j (n + 2)); [lia|reflexivity].
Qed.

Lemma pending_next (n : nat) (d : list nat) (tr ex : list Event) :
  pending env n d tr ->
  answered env n = true ->
  (forall j, closes j ex = 0) ->
  List.length (requests ex) = 1 ->
  pending env (S n) (n :: d) (tr ++ ex).
Proof.
  intros [Hnone Hsent Hone Hall] Hn Hex Hlen. split.
  - intros j. now rewrite closes_app, Hnone, Hex.
  - rewrite deletion_requests_app, List.length_app, Hsent, Hlen. lia.
  - intros j. rewrite closes_deferred, Hone.
    destruct (Nat.eqb_spec n j) as [<-|Hne].
    + destruct (Nat.ltb_spec n n); [lia|].
      destruct (Nat.ltb_spec n (S n)); [reflexivity|lia].
    + destruct (Nat.ltb_spec j n); destruct (Nat.ltb_spec j (S n));
        try reflexivity; lia.
  - intros i Hi. destruct (Nat.eq_dec i n) as [->|Hne]; [exact Hn|].
    apply Hall. lia.
Qed.

(** A return with the close of response [n] deferred on top of the older
    ones. *)
Ltac one_more Hp H Hn n deferred tr ex :=
  eapply (@leave_closes_once n deferred [n] (n :: deferred) tr ex);
    [exact Hp
    |exact H
    |rewrite <- ?List.app_assoc; reflexivity
    |reflexivity
    |reflexivity
    |apply (@closes_new_one n 0 Hn); intros; lia].

Lemma CheckDeletion_loop_closes (signals : list Signal) :
  forall (n : nat) (deferred : list nat) (tr : list Event)
         (r : error * list Event),
    pending env n deferred tr ->
    CheckDeletion_loop resourceURL env signals n deferred tr = Some r ->
    forall j, closes j (snd r) = if acquired env (snd r) j then 1 else 0.
Proof.
  induction signals as [|sig rest IH];
    intros n deferred tr r Hp H; [discriminate H|].
  destruct sig; cbn [CheckDeletion_loop] in H.
  - eapply (@leave_closes_once n deferred [] deferred tr [] tr);
      try eassumption; try reflexivity.
    + now rewrite List.app_nil_r.
    + apply (@closes_new_none n 0). intros i Hi. lia.
  - destruct (upstream env n) as [resp|cause] eqn:Hup.
    2:{ eapply (@leave_closes_once n deferred [] deferred tr
                  [EvGet resourceURL]);
          try eassumption; try reflexivity.
        apply (@closes_new_none n 1). intros i Hi.
        replace i with n by lia. unfold answered. now rewrite Hup. }
    assert (Hn : answered env n = true)
      by (unfold answered; now rewrite Hup).
    destruct (StatusCode resp =? StatusNotFound)%Z.
    { one_more Hp H Hn n deferred tr
        [EvGet resourceURL;
         EvPrintln "Deletion verified: resource not found (404)"]. }
    destruct (StatusCode resp =? StatusForbidden)%Z.
    { destruct (MatchString resourceURL).
      - destruct (new_request env (listing_url resourceURL)) as [cause|].
        + one_more Hp H Hn n deferred tr [EvGet resourceURL].
        + destruct (upstream env (S n)) as [second|cause] eqn:Hup2.
          * assert (Hs : answered env (S n) = true)
              by (unfold answered; now rewrite Hup2).
            destruct (negb (StatusCode second =? StatusOK)%Z);
              eapply (@leave_closes_once n deferred [S n; n]
                        (S n :: n :: deferred) tr
                        [EvGet resourceURL;
                         EvDo MethodGet (listing_url resourceURL)]);
              try eassumption; try reflexivity;
              try (rewrite <- ?List.app_assoc; reflexivity);
              apply (@closes_new_two n Hn Hs).
          * eapply (@leave_closes_once n deferred [n] (n :: deferred) tr
                      [EvGet resourceURL;
                       EvDo MethodGet (listing_url resourceURL)]);
              try eassumption; try reflexivity;
              try (rewrite <- ?List.app_assoc; reflexivity).
            apply (@closes_new_one n 1 Hn). intros i Hi.
            replace i with (S n) by lia.
            unfold answered. now rewrite Hup2.
      - one_more Hp H Hn n deferred tr [EvGet resourceURL]. }
    destruct (StatusCode resp =? StatusOK)%Z.
    { destruct (Body resp) as [cause|state].
      - one_more Hp H Hn n deferred tr [EvGet resourceURL].
      - destruct (String.eqb state "soft_deleted").
        + one_more Hp H Hn n deferred tr
            [EvGet resourceURL;
             EvPrintln "Deletion verified: resource is soft deleted"].
        + eapply IH; [|exact H].
          rewrite <- List.app_assoc.
          apply pending_next; try assumption; reflexivity. }
    one_more Hp H Hn n deferred tr [EvGet resourceURL].
  - eapply IH; eassumption.
Qed.

(** Whenever [CheckDeletion] returns, the body of every response it was
    given has been closed exactly once, and nothing else was closed. *)
Lemma CheckDeletion_closes_once (signals : list Signal)
    (e : error) (tr : list Event) :
  CheckDeletion resourceURL env signals = Some (e, tr) ->
  forall j, closes j tr = if acquired env tr j then 1 else 0.
Proof.
  intros H. apply (@CheckDeletion_loop_closes signals 0 [] [] (e, tr)).
  - split; try reflexivity. intros i Hi. lia.
  - exact H.
Qed.
End CloseFacts.


Section PermissionFacts.
Import Tf DataSourcePermissionResource.
Variable new_request : string -> string -> error.
Variable send : Request DataSourcePermissionPayload -> Outcome TokenBody.
Variable fmt_v : option (Response TokenBody) -> string.

(** [Create] closes the body of the response it got exactly when the
    status is 200; a response with another status leaves through the
    return in front of the deferred close. *)
Lemma Create_closes_on_200_only (r : Resource)
    (plan : DataSourcePermissionResourceModel)
    (resp : Response TokenBody) :
  new_request "POST" (Create_url r plan) = None ->
  send (mkRequest "POST" (Create_url r plan) (Some (Create_payload plan)))
  = Ok resp ->
  closed (Create new_request send fmt_v r plan) =
  if (StatusCode resp =? StatusOK)%Z then [0] else [].
Proof.
  intros Hnew Hsend. unfold Create. rewrite Hnew, Hsend.
  destruct (StatusCode resp =? StatusOK)%Z; cbn [negb].
  - destruct (Body resp); reflexivity.
  - reflexivity.
Qed.
End PermissionFacts.

(** C8.  [Create] of the data source permission, answered 500: the
    handler owns one response body, reports the failure, and returns
    without closing the body. *)
Theorem Create_leaves_body_open :
  let answer : Outcome DataSourcePermissionResource.TokenBody :=
    Ok (mkResponse StatusInternalServerError (Undecodable "EOF")) in
  let run :=
    DataSourcePermissionResource.Create
      (fun _ _ => None) (fun _ => answer) (fun _ => "<response>")
      (DataSourcePermissionResource.mkResource "https://host" "ws1")
      (DataSourcePermissionResource.mkModel
         (Tf.StringValue "ds1") (Tf.StringValue "query")
         (Tf.StringValue "g1") (Tf.StringValue "UserGroup")
         Tf.StringUnknown) in
  DataSourcePermissionResource.acquired answer = 1 /\
  Tf.closed run = [] /\
  Tf.state_op run = Tf.Untouched /\
  List.map Tf.summary (Tf.diagnostics run) = ["Client Error"].
Proof.
  cbv zeta. repeat split.
Qed.

(** ** Collections: create, then read *)

Section CollectionFacts.
Import Tf CollectionResource.

(** What [Create] sends for the configured attributes: they travel as
    they are, but for the access level "restricted", sent as "none". *)
Lemma Create_payload_planned (plan : CollectionModel) :
  let c := payload_Collection (Create_payload plan) in
  c_CollectionType c = ValueString (CollectionType plan) /\
  c_Name c = ValueString (Name plan) /\
  c_Description c = ValueString (Description plan) /\
  c_Restricted c = ValueBool (Restricted plan) /\
  c_FreeDefault c = ValueBool (FreeDefault plan) /\
  c_Viewable c = ValueBool (Viewable plan) /\
  c_DefaultAccessLevel c =
    if String.eqb (ValueString (DefaultAccessLevel plan)) "restricted"
    then "none" else ValueString (DefaultAccessLevel plan).
Proof.
  unfold Create_payload.
  destruct (String.eqb (ValueString (DefaultAccessLevel plan))
                       "restricted"); cbn; repeat split.
Qed.
End CollectionFacts.

(** C9, as the code has it.  Against an upstream that keeps what was
    posted, [Create] and then [Read] both store a state; [Read] finds every
    configured attribute as [Create] left it; and these are the planned
    values, except that a planned access level "restricted" comes back as
    "none". *)
Theorem create_then_read_planned :
  forall (r : CollectionResource.Resource)
         (plan : CollectionResource.CollectionModel) (token id : string),
    exists created read,
      CollectionResource.create_then_read r plan token id
      = Some (created, Tf.StateSet read) /\
      CollectionResource.planned read = CollectionResource.planned created /\
      CollectionResource.CollectionToken read = Tf.StringValue token /\
      CollectionResource.planned read =
        let p := CollectionResource.planned plan in
        CollectionResource.mkPlanned
          (CollectionResource.pl_CollectionType p)
          (CollectionResource.pl_Name p)
          (CollectionResource.pl_Description p)
          (CollectionResource.pl_Restricted p)
          (CollectionResource.pl_FreeDefault p)
          (CollectionResource.pl_Viewable p)
          (if String.eqb (CollectionResource.pl_DefaultAccessLevel p)
                         "restricted"
           then "none"
           else CollectionResource.pl_DefaultAccessLevel p).
Proof.
  intros r plan token id.
  unfold CollectionResource.create_then_read, CollectionResource.Create,
    CollectionResource.Read, CollectionResource.on_post,
    CollectionResource.on_get, CollectionResource.Create_payload,
    CollectionResource.planned.
  destruct plan as [name state tok ctype ident descr restr free view level].
  cbn [CollectionResource.DefaultAccessLevel CollectionResource.Name
       CollectionResource.CollectionType CollectionResource.Description
       CollectionResource.Restricted CollectionResource.FreeDefault
       CollectionResource.Viewable].
  destruct (String.eqb (Tf.ValueString level) "restricted") eqn:Hlevel;
    do 2 eexists; cbn; rewrite ?Hlevel; repeat split.
Qed.

(** C9 fails.  The plan of a collection with the schema's defaults, access
    level "restricted": after [Create] and [Read] the state says "none",
    while every other configured attribute is as planned. *)
Lemma create_then_read_changes_restricted :
  let plan :=
    CollectionResource.mkModel
      (Tf.StringValue "Finance") Tf.StringUnknown Tf.StringUnknown
      (Tf.StringValue "custom") Tf.StringUnknown (Tf.StringValue "")
      (Tf.BoolValue false) (Tf.BoolValue false) (Tf.BoolValue true)
      (Tf.StringValue "restricted") in
  exists created read,
    CollectionResource.create_then_read
      (CollectionResource.mkResource "https://host" "ws1") plan "tok1" "42"
    = Some (created, Tf.StateSet read) /\
    CollectionResource.DefaultAccessLevel read = Tf.StringValue "none" /\
    CollectionResource.DefaultAccessLevel plan
    = Tf.StringValue "restricted" /\
    CollectionResource.planned read <> CollectionResource.planned plan.
Proof.
  cbv zeta. do 2 eexists. split; [reflexivity|].
  split; [reflexivity|]. split; [reflexivity|]. discriminate.
Qed.

(** ** What the errors say *)

Lemma CheckDeletion_loop_explained (resourceURL : string)
    (env : Deletion.Env) (signals : list Deletion.Signal) :
  forall (n : nat) (deferred : list nat) (tr tr' : list Deletion.Event)
         (e : string),
    Deletion.CheckDeletion_loop resourceURL env signals n deferred tr
    = Some (Some e, tr') ->
    Deletion.explained resourceURL env e.
Proof.
  induction signals as [|sig rest IH]; intros n deferred tr tr' e H;
    [discriminate H|].
  destruct sig; cbn [Deletion.CheckDeletion_loop] in H.
  - injection H as <- _. constructor.
  - destruct (Deletion.upstream env n) as [resp|cause] eqn:Hup.
    2:{ injection H as <- _. econstructor; exact Hup. }
    destruct (Z.eqb_spec (StatusCode resp) StatusNotFound) as [E404|E404];
      [discriminate H|].
    destruct (Z.eqb_spec (StatusCode resp) StatusForbidden) as [E403|E403].
    { destruct (Deletion.MatchString resourceURL) eqn:Hm.
      - destruct (Deletion.new_request env (Deletion.listing_url resourceURL))
          as [cause|].
        + injection H as <- _. econstructor; eassumption.
        + destruct (Deletion.upstream env (S n)) as [second|cause].
          * destruct (negb (StatusCode second =? StatusOK)%Z);
              [|discriminate H].
            injection H as <- _. econstructor; eassumption.
          * injection H as <- _. econstructor; eassumption.
      - injection H as <- _.
        eapply Deletion.explained_forbidden; eassumption. }
    destruct (Z.eqb_spec (StatusCode resp) StatusOK) as [E200|E200].
    { destruct (Body resp) as [cause|state] eqn:Hbody.
      - injection H as <- _.
        eapply Deletion.explained_decode; eassumption.
      - destruct (String.eqb state "soft_deleted"); [discriminate H|].
        eapply IH; exact H. }
    injection H as <- _.
    eapply Deletion.explained_status; eassumption.
  - eapply IH; exact H.
Qed.





(** * Further properties *)

(** ** HttpRetry, whatever the upstream *)

Section RetryShape.
Import Retry.
Variable B : Type.
Variable upstream : nat -> Attempt B.
Variable url : string.

Lemma HttpRetry_loop_step (k i : nat) (last : Attempt B) (tr : list Event) :
  HttpRetry_loop upstream url (S k) i last tr =
  match att_resp (upstream i) with
  | None => mkRun Panicked (tr ++ [EvRequest MethodGet url])
  | Some r =>
      if negb (StatusCode r =? StatusTooManyRequests)%Z
      then mkRun (Returned (upstream i)) (tr ++ [EvRequest MethodGet url])
      else HttpRetry_loop upstream url k (S i) (upstream i)
             ((tr ++ [EvRequest MethodGet url]) ++ [EvSleep sleep])
  end.
Proof. reflexivity. Qed.

(** The loop ends at once on an attempt that is not rate-limited. *)
Lemma ends_on_last_now (k i : nat) (tr : list Event) (e : Exit (Attempt B)) :
  limited_before upstream i ->
  requests tr = i ->
  match e with
  | Returned a =>
      a = upstream i /\
      exists r, att_resp a = Some r /\
                StatusCode r <> StatusTooManyRequests
  | Panicked => att_resp (upstream i) = None
  end ->
  ends_on_last upstream i k (mkRun e (tr ++ [EvRequest MethodGet url])).
Proof.
  intros Hlim Htr He. unfold ends_on_last. cbn [exit trace].
  rewrite requests_app, Htr.
  change (requests [EvRequest MethodGet url]) with 1.
  replace (i + 1 - 1) with i by lia.
  split; [lia|]. split; [exact Hlim|].
  destruct e as [a|]; [|exact He].
  destruct He as [Ha [r [Hr Hne]]]. split; [exact Ha|].
  exists r. split; [exact Hr | now left].
Qed.

Lemma HttpRetry_loop_ends_on_last (k : nat) :
  forall (i : nat) (last : Attempt B) (tr : list Event),
    limited_before upstream i ->
    requests tr = i ->
    ends_on_last upstream i k (HttpRetry_loop upstream url (S k) i last tr).
Proof.
  induction k as [|k IH]; intros i last tr Hlim Htr;
    rewrite HttpRetry_loop_step;
    destruct (att_resp (upstream i)) as [r|] eqn:Hr;
    try (apply ends_on_last_now; assumption);
    destruct (Z.eqb_spec (StatusCode r) StatusTooManyRequests) as [E|E];
    cbn [negb];
    try (apply ends_on_last_now; try assumption;
         split; [reflexivity|]; exists r; now split).
  - cbn [HttpRetry_loop]. unfold ends_on_last. cbn [exit trace].
    rewrite !requests_app, Htr.
    change (requests [EvRequest MethodGet url]) with 1.
    change (requests [EvSleep sleep]) with 0.
    replace (i + 1 + 0 - 1) with i by lia.
    split; [lia|]. split; [exact Hlim|]. split; [reflexivity|].
    exists r. split; [exact Hr|]. right. lia.
  - assert (Hnext : limited_before upstream (S i)).
    { intros j Hj. destruct (Nat.eq_dec j i) as [->|Hne].
      - exists r. now split.
      - apply Hlim. lia. }
    assert (Hreq : requests
                     ((tr ++ [EvRequest MethodGet url]) ++ [EvSleep sleep])
                   = S i).
    { rewrite !requests_app, Htr.
      change (requests [EvRequest MethodGet url]) with 1.
      change (requests [EvSleep sleep]) with 0. lia. }
    specialize (IH (S i) (upstream i) _ Hnext Hreq).
    unfold ends_on_last in IH |- *.
    destruct IH as [Hn [Hl He]].
    split; [lia|]. split; [exact Hl|].
    destruct (exit
                (HttpRetry_loop upstream url (S k) (S i) (upstream i)
                   ((tr ++ [EvRequest MethodGet url]) ++ [EvSleep sleep])));
      [|exact He].
    destruct He as [Ha [r' [Hr' Hor]]]. split; [exact Ha|].
    exists r'. split; [exact Hr'|].
    destruct Hor as [H|H]; [now left | right; lia].
Qed.

Lemma HttpRetry_loop_sleeps_requests (remaining : nat) :
  forall (i : nat) (last : Attempt B) (tr : list Event),
    List.length (sleeps tr) <= requests tr ->
    List.length
      (sleeps (trace (HttpRetry_loop upstream url remaining i last tr)))
    <= requests (trace (HttpRetry_loop upstream url remaining i last tr)).
Proof.
  induction remaining as [|k IH]; intros i last tr Htr;
    cbn [HttpRetry_loop]; [exact Htr|].
  destruct (att_resp (upstream i)) as [r|]; cbn [trace].
  - destruct (negb (StatusCode r =? StatusTooManyRequests)%Z);
      cbn [trace].
    + rewrite sleeps_app, requests_app, List.length_app.
      change (requests [EvRequest MethodGet url]) with 1.
      change (List.length (sleeps [EvRequest MethodGet url])) with 0. lia.
    + apply IH.
      rewrite !sleeps_app, !requests_app, !List.length_app.
      change (requests [EvRequest MethodGet url]) with 1.
      change (requests [EvSleep sleep]) with 0.
      change (List.length (sleeps [EvRequest MethodGet url])) with 0.
      change (List.length (sleeps [EvSleep sleep])) with 1. lia.
  - rewrite sleeps_app, requests_app, List.length_app.
    change (requests [EvRequest MethodGet url]) with 1.
    change (List.length (sleeps [EvRequest MethodGet url])) with 0. lia.
Qed.

Lemma HttpRetry_loop_get_or_sleep (remaining : nat) :
  forall (i : nat) (last : Attempt B) (tr : list Event),
    List.Forall (get_or_sleep url) tr ->
    List.Forall (get_or_sleep url)
      (trace (HttpRetry_loop upstream url remaining i last tr)).
Proof.
  assert (Hget : get_or_sleep url (EvRequest MethodGet url))
    by (now left).
  assert (Hsleep : get_or_sleep url (EvSleep sleep)) by (now right).
  induction remaining as [|k IH]; intros i last tr Htr;
    cbn [HttpRetry_loop]; [exact Htr|].
  destruct (att_resp (upstream i)) as [r|]; cbn [trace].
  - destruct (negb (StatusCode r =? StatusTooManyRequests)%Z);
      cbn [trace].
    + apply List.Forall_app. split; [exact Htr | now constructor].
    + apply IH. repeat (apply List.Forall_app; split);
        try assumption; now constructor.
  - apply List.Forall_app. split; [exact Htr | now constructor].
Qed.
End RetryShape.

Lemma slept_all_ten (l : list Z) :
  List.Forall (fun s => s = 10%Z) l ->
  List.fold_right Z.add 0%Z l = (10 * Z.of_nat (List.length l))%Z.
Proof.
  induction 1 as [|s l Hs _ IH]; [reflexivity|].
  cbn [List.fold_right List.length]. rewrite IH, Hs. lia.
Qed.




(** ** CheckDeletion, whatever the upstream *)

(** X4 is [CheckDeletion_closes_once] above: when [CheckDeletion] returns,
    the body of every response it was given has been closed exactly once.
    Here on a poll answered "active", a poll answered 403 and a listing
    call answered 403 as well: the three bodies are closed once each, and
    nothing else is. *)
Lemma CheckDeletion_closes_once_witness :
  let url := "https://host/api/ws1/spaces/tok1" in
  let env := Deletion.active_then 1
               (Ok (mkResponse StatusForbidden (Decodes ""))) in
  let tr :=
    [Deletion.EvGet url;
     Deletion.EvPrintln "Resource state: active still active, retrying...";
     Deletion.EvGet url;
     Deletion.EvDo "GET" "https://host/api/ws1/spaces?filter=all";
     Deletion.EvClose 2; Deletion.EvClose 1; Deletion.EvClose 0;
     Deletion.EvTickerStop] in
  Deletion.closes 0 tr = 1 /\ Deletion.closes 1 tr = 1 /\
  Deletion.closes 2 tr = 1 /\ Deletion.closes 3 tr = 0.
Proof.
  intros url env tr.
  pose proof (@CheckDeletion_closes_once url env
                [Deletion.Tick; Deletion.Tick]
                (Some "Unable to read collections during deletion verification, got error: %!s(<nil>)")
                tr eq_refl) as H.
  split; [exact (H 0)|]. split; [exact (H 1)|].
  split; [exact (H 2) | exact (H 3)].
Defined.

Section DeletionBounds.
Import Deletion.
Variable resourceURL : string.
Variable env : Env.

Lemma listings_app (t1 t2 : list Event) :
  listings (t1 ++ t2) = listings t1 + listings t2.
Proof. unfold listings. now rewrite List.filter_app, List.length_app. Qed.

Lemma listings_returned (d : list nat) (tr : list Event) :
  listings (tr ++ List.map EvClose d ++ [EvTickerStop]) = listings tr.
Proof.
  rewrite !listings_app.
  assert (H : listings (List.map EvClose d) = 0)
    by (induction d as [|k d IH]; [reflexivity | exact IH]).
  rewrite H. cbn. lia.
Qed.

(** What a return adds to the trace: [m] requests, of them [l] to the
    listing. *)
Lemma leave_counts (d : list nat) (tr ex : list Event) (e : error)
    (r : error * list Event) (m l budget : nat) :
  leave d (tr ++ ex) e = Some r ->
  List.length (requests ex) = m ->
  listings ex = l ->
  m <= budget + 1 -> l <= 1 ->
  List.length (requests (snd r)) <= List.length (requests tr) + budget + 1 /\
  listings (snd r) <= listings tr + 1.
Proof.
  intros Hr Hm Hl Hb Hl1. injection Hr as <-. cbn [snd].
  rewrite requests_returned, listings_returned.
  rewrite deletion_requests_app, List.length_app, listings_app. lia.
Qed.

Lemma CheckDeletion_loop_counts (signals : list Signal) :
  forall (n : nat) (deferred : list nat) (tr : list Event)
         (r : error * list Event),
    CheckDeletion_loop resourceURL env signals n deferred tr = Some r ->
    List.length (requests (snd r))
    <= List.length (requests tr) + ticks signals + 1 /\
    listings (snd r) <= listings tr + 1.
Proof.
  induction signals as [|sig rest IH]; intros n deferred tr r H;
    [discriminate H|].
  destruct sig; cbn [CheckDeletion_loop] in H.
  - rewrite <- (List.app_nil_r tr) in H.
    eapply leave_counts in H; try reflexivity;
      [exact H | cbn; lia | cbn; lia].
  - change (ticks (Tick :: rest)) with (S (ticks rest)).
    assert (Hone : forall d ex e,
      leave d ((tr ++ [EvGet resourceURL]) ++ ex) e = Some r ->
      List.length (requests ex) <= 1 ->
      listings ex <= 1 ->
      List.length (requests (snd r))
      <= List.length (requests tr) + S (ticks rest) + 1 /\
      listings (snd r) <= listings tr + 1).
    { intros d ex e Hl Hsum Hle. rewrite <- List.app_assoc in Hl.
      eapply (@leave_counts d tr ([EvGet resourceURL] ++ ex) e r
                (S (List.length (requests ex))) (listings ex)
                (S (ticks rest))) in Hl;
        try reflexivity; [exact Hl | cbn; lia | cbn; lia]. }
    assert (Hzero : forall d e,
      leave d (tr ++ [EvGet resourceURL]) e = Some r ->
      List.length (requests (snd r))
      <= List.length (requests tr) + S (ticks rest) + 1 /\
      listings (snd r) <= listings tr + 1).
    { intros d e Hl.
      rewrite <- (List.app_nil_r (tr ++ [EvGet resourceURL])) in Hl.
      apply (Hone d [] e Hl); cbn; lia. }
    destruct (upstream env n) as [resp|cause]; [|now apply Hzero in H].
    destruct (StatusCode resp =? StatusNotFound)%Z.
    { apply Hone in H; [exact H | cbn; lia | cbn; lia]. }
    destruct (StatusCode resp =? StatusForbidden)%Z.
    { destruct (MatchString resourceURL); [|now apply Hzero in H].
      destruct (new_request env (listing_url resourceURL));
        [now apply Hzero in H|].
      destruct (upstream env (S n)) as [second|cause].
      - destruct (negb (StatusCode second =? StatusOK)%Z);
          (apply Hone in H; [exact H | cbn; lia | cbn; lia]).
      - apply Hone in H; [exact H | cbn; lia | cbn; lia]. }
    destruct (StatusCode resp =? StatusOK)%Z; [|now apply Hzero in H].
    destruct (Body resp) as [cause|state]; [now apply Hzero in H|].
    destruct (String.eqb state "soft_deleted").
    { apply Hone in H; [exact H | cbn; lia | cbn; lia]. }
    apply IH in H. destruct H as [Hreq Hlist].
    rewrite !deletion_requests_app, !List.length_app in Hreq.
    rewrite !listings_app in Hlist.
    change (List.length (requests [EvGet resourceURL])) with 1 in Hreq.
    change (listings [EvGet resourceURL]) with 0 in Hlist.
    cbn [requests List.filter is_request List.length] in Hreq.
    cbn [listings List.filter List.length] in Hlist.
    split; lia.
  - apply IH in H. exact H.
Qed.
End DeletionBounds.

(** X5.  The timer ends every call: once its signal is among the signals
    the select receives, [CheckDeletion] returns, whatever the upstream
    answers. *)
Theorem CheckDeletion_returns_once_timer_fires :
  forall (resourceURL : string) (env : Deletion.Env)
         (signals : list Deletion.Signal),
    List.In Deletion.Timeout signals ->
    exists (e : error) (tr : list Deletion.Event),
      Deletion.CheckDeletion resourceURL env signals = Some (e, tr).
Proof.
  intros resourceURL env signals Hin.
  destruct (@CheckDeletion_loop_returns resourceURL env signals 0 [] [] Hin)
    as [[e tr] H].
  exists e, tr. exact H.
Qed.

(** A poll, a cancellation, then the timer. *)
Lemma CheckDeletion_returns_once_timer_fires_witness :
  exists (e : error) (tr : list Deletion.Event),
    Deletion.CheckDeletion "https://host/api/ws1/groups/g1"
      (Deletion.active_then 2 (Fail "connection refused"))
      [Deletion.Tick; Deletion.Cancelled; Deletion.Timeout; Deletion.Tick]
    = Some (e, tr).
Proof.
  apply CheckDeletion_returns_once_timer_fires.
  right. right. left. reflexivity.
Defined.

(** X6.  A call of [CheckDeletion] sends one GET for each tick it serves
    and at most one request to the listing: no more requests than ticks
    among its signals plus one, whatever the upstream answers. *)
Theorem CheckDeletion_one_request_a_tick :
  forall (resourceURL : string) (env : Deletion.Env)
         (signals : list Deletion.Signal) (e : error)
         (tr : list Deletion.Event),
    Deletion.CheckDeletion resourceURL env signals = Some (e, tr) ->
    List.length (Deletion.requests tr) <= ticks signals + 1 /\
    listings tr <= 1.
Proof.
  intros resourceURL env signals e tr H.
  apply CheckDeletion_loop_counts in H. cbn [snd] in H.
  cbn in H. exact H.
Qed.

(** A 403 on a collection at the second of three ticks: three requests,
    one of them to the listing. *)
Lemma CheckDeletion_one_request_a_tick_witness :
  let url := "https://host/api/ws1/spaces/tok1" in
  let tr :=
    [Deletion.EvGet url;
     Deletion.EvPrintln "Resource state: active still active, retrying...";
     Deletion.EvGet url;
     Deletion.EvDo "GET" "https://host/api/ws1/spaces?filter=all";
     Deletion.EvClose 2; Deletion.EvClose 1; Deletion.EvClose 0;
     Deletion.EvTickerStop] in
  List.length (Deletion.requests tr) <= 3 + 1 /\ listings tr <= 1.
Proof.
  intros url tr.
  apply (@CheckDeletion_one_request_a_tick url
           (Deletion.active_then 1
              (Ok (mkResponse StatusForbidden (Decodes ""))))
           [Deletion.Tick; Deletion.Tick; Deletion.Tick]
           (Some "Unable to read collections during deletion verification, got error: %!s(<nil>)")
           tr).
  reflexivity.
Defined.

(** X7.  On every stream of signals and for every upstream, what
    [CheckDeletion] has done agrees with the state machine of the design:
    still waiting when the machine is in [Polling], nil returned in
    [ConfirmedDeleted], the timeout error in [TimedOut], another error in
    [Errored]. *)
Theorem CheckDeletion_agrees_with_machine :
  forall (resourceURL : string) (env : Deletion.Env)
         (signals : list Deletion.Signal),
    agrees (Deletion.CheckDeletion resourceURL env signals)
           (Spec.run resourceURL env signals 0 Spec.Polling).
Proof.
  intros. apply CheckDeletion_loop_refines.
Qed.

(** X8.  A poll that fails is not tried again: when the GET of a tick
    yields no response, or a 200 whose body does not decode,
    [CheckDeletion] returns the error with the cause at that tick, after
    one GET per tick and none to the listing. *)
Theorem CheckDeletion_failed_poll_ends_call :
  forall (resourceURL : string) (env : Deletion.Env) (k : nat)
         (rest : list Deletion.Signal) (text : string),
    Deletion.active_before env k ->
    poll_failed (Deletion.upstream env k) text ->
    exists tr,
      Deletion.CheckDeletion resourceURL env
        (List.repeat Deletion.Tick k ++ Deletion.Tick :: rest)
      = Some (Some text, tr) /\
      Deletion.requests tr =
        List.repeat (Deletion.EvGet resourceURL) (S k).
Proof.
  intros resourceURL env k rest text Hact Hfail.
  rewrite CheckDeletion_active by exact Hact.
  cbn [Deletion.CheckDeletion_loop].
  destruct Hfail as [[cause [Hup ->]] | [cause [Hup ->]]]; rewrite Hup.
  - eexists. split; [reflexivity|].
    rewrite requests_returned, !deletion_requests_app.
    rewrite requests_active_rounds. cbn [Deletion.requests List.filter
      Deletion.is_request List.app].
    now rewrite <- List.repeat_cons.
  - cbn [StatusCode Body].
    change (StatusOK =? StatusNotFound)%Z with false.
    change (StatusOK =? StatusForbidden)%Z with false.
    change (StatusOK =? StatusOK)%Z with true. cbn iota.
    eexists. split; [reflexivity|].
    rewrite requests_returned, !deletion_requests_app.
    rewrite requests_active_rounds. cbn [Deletion.requests List.filter
      Deletion.is_request List.app].
    now rewrite <- List.repeat_cons.
Qed.

(** Two polls answered "active", then a refused connection. *)
Lemma CheckDeletion_failed_poll_ends_call_witness :
  let url := "https://host/api/ws1/groups/g1" in
  exists tr,
    Deletion.CheckDeletion url
      (Deletion.active_then 2 (Fail "connection refused"))
      (List.repeat Deletion.Tick 2 ++ Deletion.Tick :: [Deletion.Tick])
    = Some (Some "error making GET request: connection refused", tr) /\
    Deletion.requests tr = List.repeat (Deletion.EvGet url) 3.
Proof.
  intros url.
  apply (@CheckDeletion_failed_poll_ends_call url
           (Deletion.active_then 2 (Fail "connection refused")) 2
           [Deletion.Tick] "error making GET request: connection refused").
  - apply active_then_before.
  - left. exists "connection refused". split; reflexivity.
Defined.

(** ** The pattern and the listing address *)

(** X9.  The pattern of the workaround accepts exactly the addresses
    "https://<host>/api/<workspace>/spaces/<token>" whose three parts are
    not empty and hold no '/'. *)
Theorem MatchString_iff :
  forall url : string,
    Deletion.MatchString url = true <->
    exists host ws tok,
      url = Spec.collection_url host ws tok /\
      Str.slash_free host = true /\ Str.slash_free ws = true /\
      Str.slash_free tok = true /\
      host <> "" /\ ws <> "" /\ tok <> "".
Proof.
  intros url. split.
  - apply MatchString_inv.
  - intros [host [ws [tok [-> [Hh [Hw [Ht [Nh [Nw Nt]]]]]]]]].
    now apply MatchString_collection_url.
Qed.

(** X10.  For a host and a workspace without '/' and not named "spaces",
    the address the workaround of [CheckDeletion] asks, the text in front
    of the first "/spaces/" with "/spaces?filter=all" behind it, is the
    listing of the workspace's collections. *)
Theorem listing_url_is_parent_listing :
  forall host ws tok : string,
    Str.slash_free host = true -> Str.slash_free ws = true ->
    host <> "spaces" -> ws <> "spaces" ->
    Deletion.listing_url (Spec.collection_url host ws tok)
    = Spec.parent_listing host ws.
Proof.
  intros host ws tok Hh Hw Nh Nw. now apply listing_url_parent.
Qed.

(** The example of the design document. *)
Lemma listing_url_is_parent_listing_witness :
  Deletion.listing_url (Spec.collection_url "host" "ws1" "tok1")
  = Spec.parent_listing "host" "ws1".
Proof.
  apply (@listing_url_is_parent_listing "host" "ws1" "tok1").
  - reflexivity.
  - reflexivity.
  - discriminate.
  - discriminate.
Defined.

(** X11 is [CheckDeletion_forbidden] above: what a poll answered 403 leads
    to.  Here a collection whose second poll is answered 403, the listing
    200: nil is returned after two GETs and the listing request. *)
Lemma CheckDeletion_forbidden_witness :
  let url := "https://host/api/ws1/spaces/tok1" in
  let env :=
    Deletion.mkEnv
      (fun i => match i with
                | 0 => Ok (mkResponse StatusOK (Decodes "active"))
                | 1 => Ok (mkResponse StatusForbidden (Decodes ""))
                | _ => Ok (mkResponse StatusOK (Decodes ""))
                end)
      (fun _ => None) in
  let signals := List.repeat Deletion.Tick 1 ++ Deletion.Tick :: [] in
  exists e tr,
    Deletion.CheckDeletion url env signals = Some (e, tr) /\
    Deletion.requests tr =
      List.repeat (Deletion.EvGet url) 2
      ++ [Deletion.EvDo MethodGet (Deletion.listing_url url)] /\
    (e = None <->
     exists second, Deletion.upstream env 2 = Ok second /\
                    StatusCode second = StatusOK).
Proof.
  intros url env signals.
  assert (Hact : Deletion.active_before env 1).
  { intros i Hi. exists "active".
    destruct i as [|i]; [|lia]. split; [reflexivity | discriminate]. }
  destruct (@CheckDeletion_forbidden url env 1 []
              (mkResponse StatusForbidden (Decodes "")) Hact
              eq_refl eq_refl) as [_ Hmatch].
  apply Hmatch; reflexivity.
Defined.

(** ** CollectionResource: every path of the handlers *)

Section HandlerEnds.
Import Tf.

Lemma failed_reports (M : Type) (summary detail : string)
    (closed : list nat) :
  stores_or_reports (failed M summary detail closed).
Proof. right. eexists. split; reflexivity. Qed.

Lemma set_stores (M : Type) (m : M) (closed : list nat) :
  stores_or_reports (mkHandlerRun [] (StateSet m) closed).
Proof. left. split; [reflexivity | discriminate]. Qed.

Lemma removed_stores (M : Type) (closed : list nat) :
  stores_or_reports (mkHandlerRun [] (@RemoveResource M) closed).
Proof. left. split; [reflexivity | discriminate]. Qed.
End HandlerEnds.

(** X12.  On every path, [Create], [Read] and [Update] of a collection
    end in one of two ways: no diagnostic and the state set or removed, or
    exactly one error diagnostic and the state left as it was. *)
Theorem collection_handlers_store_or_report :
  forall (new_request : string -> string -> error)
         (send : Tf.Request CollectionResource.CollectionPayload ->
                 Outcome CollectionResource.DataBody)
         (fmt_v : option (Response CollectionResource.DataBody) -> string)
         (r : CollectionResource.Resource)
         (m : CollectionResource.CollectionModel),
    stores_or_reports (CollectionResource.Create new_request send fmt_v r m)
    /\
    stores_or_reports (CollectionResource.Read new_request send r m) /\
    stores_or_reports (CollectionLifecycle.Update new_request send r m).
Proof.
  intros new_request send fmt_v r m.
  unfold CollectionResource.Create, CollectionResource.Read,
    CollectionLifecycle.Update.
  repeat split.
  - destruct (new_request "POST" _); [apply failed_reports|].
    destruct (send _) as [resp|]; [|apply failed_reports].
    destruct (negb _); [apply failed_reports|].
    destruct (Body resp); [apply failed_reports | apply set_stores].
  - destruct (new_request "GET" (CollectionResource.Read_url r m));
      [apply failed_reports|].
    destruct (send _) as [resp|]; [|apply failed_reports].
    destruct (StatusCode resp =? StatusOK)%Z.
    { destruct (Body resp) as [|d]; [apply failed_reports|].
      destruct (String.eqb _ _); [apply removed_stores | apply set_stores]. }
    destruct (StatusCode resp =? StatusNotFound)%Z; [apply removed_stores|].
    destruct (StatusCode resp =? StatusForbidden)%Z; [|apply failed_reports].
    destruct (new_request "GET" _); [apply failed_reports|].
    destruct (send _) as [resp2|]; [|apply failed_reports].
    destruct (StatusCode resp2 =? StatusOK)%Z;
      [apply removed_stores | apply failed_reports].
  - destruct (new_request "PATCH" _); [apply failed_reports|].
    destruct (send _) as [resp|]; [|apply failed_reports].
    destruct (negb _); [apply failed_reports|].
    destruct (Body resp); [apply failed_reports | apply set_stores].
Qed.

(** X13.  [Read] of a collection closes the body of every response it
    gets, once, on every path: the first whenever the first call is
    answered, the second exactly when a 403 led to a listing call that
    was answered; and it closes nothing else. *)
Theorem collection_Read_closes_every_body :
  forall (new_request : string -> string -> error)
         (send : Tf.Request CollectionResource.CollectionPayload ->
                 Outcome CollectionResource.DataBody)
         (r : CollectionResource.Resource)
         (state : CollectionResource.CollectionModel),
    let run := CollectionResource.Read new_request send r state in
    let url := CollectionResource.Read_url r state in
    let listing := CollectionResource.Read_listing_url r in
    List.NoDup (Tf.closed run) /\
    (forall j, List.In j (Tf.closed run) -> j = 0 \/ j = 1) /\
    (forall resp,
       new_request "GET" url = None ->
       send (Tf.mkRequest "GET" url None) = Ok resp ->
       List.In 0 (Tf.closed run) /\
       (List.In 1 (Tf.closed run) <->
        StatusCode resp = StatusForbidden /\
        new_request "GET" listing = None /\
        exists resp2, send (Tf.mkRequest "GET" listing None) = Ok resp2)).
Proof.
  intros new_request send r state run url listing.
  assert (N0 : List.NoDup (@nil nat)) by constructor.
  assert (N1 : List.NoDup [0])
    by (constructor; [intros [] | constructor]).
  assert (N2 : List.NoDup [1; 0]).
  { constructor; [intros [H|[]]; discriminate H | exact N1]. }
  assert (I1 : forall j, List.In j [0] -> j = 0 \/ j = 1)
    by (intros j [<-|[]]; now left).
  assert (I2 : forall j, List.In j [1; 0] -> j = 0 \/ j = 1)
    by (intros j [<-|[<-|[]]]; [now right | now left]).
  assert (Only0 : ~ List.In 1 [0]) by (intros [H|[]]; discriminate H).
  subst run. unfold CollectionResource.Read. fold url. fold listing.
  destruct (new_request "GET" url) as [cause|] eqn:Hnew.
  { cbn [Tf.closed Tf.failed]. repeat split; try assumption;
      try (intros j []); intros; discriminate. }
  destruct (send (Tf.mkRequest "GET" url None)) as [resp|cause] eqn:Hsend.
  2:{ cbn [Tf.closed Tf.failed]. repeat split; try assumption;
        try (intros j []); intros; discriminate. }
  assert (Hfirst : forall (run : Tf.HandlerRun CollectionResource.CollectionModel),
    Tf.closed run = [0] ->
    StatusCode resp <> StatusForbidden ->
    List.NoDup (Tf.closed run) /\
    (forall j, List.In j (Tf.closed run) -> j = 0 \/ j = 1) /\
    (forall resp0,
       @None string = None -> Ok resp = Ok resp0 ->
       List.In 0 (Tf.closed run) /\
       (List.In 1 (Tf.closed run) <->
        StatusCode resp0 = StatusForbidden /\
        new_request "GET" listing = None /\
        exists resp2, send (Tf.mkRequest "GET" listing None) = Ok resp2))).
  { intros run Hc Hne. rewrite Hc. split; [exact N1|]. split; [exact I1|].
    intros resp0 _ E. injection E as <-. split; [now left|].
    split; [intros H; now apply Only0 in H|]. intros [H _]. contradiction. }
  destruct (Z.eqb_spec (StatusCode resp) StatusOK) as [E200|E200].
  { assert (Hne : StatusCode resp <> StatusForbidden)
      by (rewrite E200; discriminate).
    destruct (Body resp) as [cause|d]; [now apply Hfirst|].
    destruct (String.eqb _ _); now apply Hfirst. }
  destruct (Z.eqb_spec (StatusCode resp) StatusNotFound) as [E404|E404].
  { apply Hfirst; [reflexivity|]. rewrite E404. discriminate. }
  destruct (Z.eqb_spec (StatusCode resp) StatusForbidden) as [E403|E403];
    [|now apply Hfirst].
  destruct (new_request "GET" listing) as [cause|] eqn:Hnew2.
  { cbn [Tf.closed Tf.failed]. split; [exact N1|]. split; [exact I1|].
    intros resp0 _ E. injection E as <-. split; [now left|].
    split; [intros H; now apply Only0 in H|].
    intros [_ [H _]]. discriminate H. }
  destruct (send (Tf.mkRequest "GET" listing None)) as [resp2|cause]
    eqn:Hsend2.
  - assert (Hc : forall run : Tf.HandlerRun CollectionResource.CollectionModel,
      Tf.closed run = [1; 0] ->
      List.NoDup (Tf.closed run) /\
      (forall j, List.In j (Tf.closed run) -> j = 0 \/ j = 1) /\
      (forall resp0,
         @None string = None -> Ok resp = Ok resp0 ->
         List.In 0 (Tf.closed run) /\
         (List.In 1 (Tf.closed run) <->
          StatusCode resp0 = StatusForbidden /\
          @None string = None /\
          exists resp3, Ok resp2 = Ok resp3))).
    { intros run Hc. rewrite Hc. split; [exact N2|]. split; [exact I2|].
      intros resp0 _ E. injection E as <-.
      split; [right; now left|].
      split; [|intros _; now left].
      intros _. split; [exact E403|]. split; [reflexivity|].
      now exists resp2. }
    destruct (StatusCode resp2 =? StatusOK)%Z; now apply Hc.
  - cbn [Tf.closed Tf.failed]. split; [exact N1|]. split; [exact I1|].
    intros resp0 _ E. injection E as <-. split; [now left|].
    split; [intros H; now apply Only0 in H|].
    intros [_ [_ [resp3 H]]]. discriminate H.
Qed.

(** A collection answered 403, the listing 200: both bodies are closed. *)
Lemma collection_Read_closes_every_body_witness :
  let send : Tf.Request CollectionResource.CollectionPayload ->
             Outcome CollectionResource.DataBody :=
    fun req =>
      if String.eqb (Tf.req_url req) "https://host/api/ws1/spaces/tok1"
      then Ok (mkResponse StatusForbidden (Undecodable "EOF"))
      else Ok (mkResponse StatusOK (Undecodable "EOF")) in
  let r := CollectionResource.mkResource "https://host" "ws1" in
  let state :=
    CollectionResource.mkModel
      (Tf.StringValue "Finance") (Tf.StringValue "active")
      (Tf.StringValue "tok1") (Tf.StringValue "custom")
      (Tf.StringValue "42") (Tf.StringValue "")
      (Tf.BoolValue false) (Tf.BoolValue false) (Tf.BoolValue true)
      (Tf.StringValue "none") in
  let run := CollectionResource.Read (fun _ _ => None) send r state in
  List.In 0 (Tf.closed run) /\
  (List.In 1 (Tf.closed run) <->
   StatusForbidden = StatusForbidden /\
   @None string = None /\
   exists resp2,
     send (Tf.mkRequest "GET" (CollectionResource.Read_listing_url r) None)
     = Ok resp2).
Proof.
  intros send r state run.
  destruct (@collection_Read_closes_every_body (fun _ _ => None) send r state)
    as [_ [_ H]].
  apply (H (mkResponse StatusForbidden (Undecodable "EOF")));
    reflexivity.
Defined.

(** X14.  The address [Read] of a collection asks in its 403 workaround
    and the one [CheckDeletion] derives from the address of the collection
    are the same, for a provider configured with "https://<host>" when
    neither the host nor the workspace holds a '/' or is named "spaces". *)
Theorem workarounds_ask_same_listing :
  forall (host ws : string) (state : CollectionResource.CollectionModel),
    Str.slash_free host = true -> Str.slash_free ws = true ->
    host <> "spaces" -> ws <> "spaces" ->
    let r := CollectionResource.mkResource ("https://" ++ host)%string ws in
    Deletion.listing_url (CollectionResource.Read_url r state)
    = CollectionResource.Read_listing_url r.
Proof.
  intros host ws state Hh Hw Nh Nw r.
  change (CollectionResource.Read_url r state)
    with (Spec.collection_url host ws
            (Tf.ValueString (CollectionResource.CollectionToken state))).
  change (CollectionResource.Read_listing_url r)
    with (Spec.parent_listing host ws).
  now apply listing_url_parent.
Qed.

Lemma workarounds_ask_same_listing_witness :
  let state :=
    CollectionResource.mkModel
      (Tf.StringValue "Finance") (Tf.StringValue "active")
      (Tf.StringValue "tok1") (Tf.StringValue "custom")
      (Tf.StringValue "42") (Tf.StringValue "")
      (Tf.BoolValue false) (Tf.BoolValue false) (Tf.BoolValue true)
      (Tf.StringValue "none") in
  let r := CollectionResource.mkResource "https://app.mode.com" "acme" in
  Deletion.listing_url (CollectionResource.Read_url r state)
  = CollectionResource.Read_listing_url r.
Proof.
  intros state.
  apply (@workarounds_ask_same_listing "app.mode.com" "acme" state).
  - reflexivity.
  - reflexivity.
  - discriminate.
  - discriminate.
Defined.

(** X15.  Whether the verification behind [Delete] of a collection can
    reach the 403 workaround hangs on how [mode_host] is written: with
    "https://<host>" the address of the collection matches the pattern;
    with a trailing '/' behind the host, or with "http://", it never
    does. *)
Theorem workaround_needs_bare_https_host :
  forall (host ws : string) (state : CollectionResource.CollectionModel),
    Str.slash_free host = true -> Str.slash_free ws = true ->
    Str.slash_free
      (Tf.ValueString (CollectionResource.CollectionToken state)) = true ->
    host <> "" -> ws <> "" ->
    Tf.ValueString (CollectionResource.CollectionToken state) <> "" ->
    let address := fun modeHost =>
      CollectionResource.Read_url
        (CollectionResource.mkResource modeHost ws) state in
    Deletion.MatchString (address ("https://" ++ host)%string) = true /\
    Deletion.MatchString (address ("https://" ++ host ++ "/")%string)
    = false /\
    Deletion.MatchString (address ("http://" ++ host)%string) = false.
Proof.
  intros host ws state Hh Hw Ht Nh Nw Nt address. subst address.
  split; [|split].
  - change (CollectionResource.Read_url
              (CollectionResource.mkResource ("https://" ++ host) ws) state)
      with (Spec.collection_url host ws
              (Tf.ValueString (CollectionResource.CollectionToken state))).
    now apply MatchString_collection_url.
  - replace (CollectionResource.Read_url
               (CollectionResource.mkResource ("https://" ++ host ++ "/") ws)
               state)
      with ("https://" ++ host ++ "//api/" ++ ws ++ "/spaces/"
            ++ Tf.ValueString (CollectionResource.CollectionToken state))%string
      by (unfold CollectionResource.Read_url;
          cbn [CollectionResource.modeHost CollectionResource.workspaceId];
          rewrite !append_assoc; reflexivity).
    unfold Deletion.MatchString.
    rewrite strip_prefix_app.
    rewrite span_segment_app;
      [|exact Hh|right; eexists; reflexivity].
    apply is_empty_false in Nh. rewrite Nh. reflexivity.
  - reflexivity.
Qed.

Lemma workaround_needs_bare_https_host_witness :
  let state :=
    CollectionResource.mkModel
      (Tf.StringValue "Finance") (Tf.StringValue "active")
      (Tf.StringValue "tok1") (Tf.StringValue "custom")
      (Tf.StringValue "42") (Tf.StringValue "")
      (Tf.BoolValue false) (Tf.BoolValue false) (Tf.BoolValue true)
      (Tf.StringValue "none") in
  let address := fun modeHost =>
    CollectionResource.Read_url
      (CollectionResource.mkResource modeHost "acme") state in
  Deletion.MatchString (address "https://app.mode.com") = true /\
  Deletion.MatchString (address "https://app.mode.com/") = false /\
  Deletion.MatchString (address "http://app.mode.com") = false.
Proof.
  intros state.
  apply (@workaround_needs_bare_https_host "app.mode.com" "acme" state);
    try reflexivity; discriminate.
Defined.

(** ** CollectionResource: delete and update *)

(** X16.  [Delete] of a collection takes the resource out of the state
    only after a verified deletion: when it does, the DELETE was answered
    200 and the verifier's machine, on the address that was deleted, is in
    [ConfirmedDeleted]; on every other path it reports exactly one error
    and leaves the state alone.  It returns whenever the timer is among
    the signals of the verification. *)
Theorem Delete_removes_only_when_verified :
  forall (new_request : string -> string -> error)
         (send : Tf.Request CollectionResource.CollectionPayload ->
                 Outcome CollectionResource.DataBody)
         (fmt_v : option (Response CollectionResource.DataBody) -> string)
         (polls : Deletion.Env) (signals : list Deletion.Signal)
         (r : CollectionResource.Resource)
         (state : CollectionResource.CollectionModel),
    let url := CollectionResource.Read_url r state in
    let delete :=
      CollectionLifecycle.Delete new_request send fmt_v polls signals
        r state in
    (List.In Deletion.Timeout signals -> exists run, delete = Some run) /\
    (forall run,
       delete = Some run ->
       (Tf.state_op run = Tf.RemoveResource /\
        Tf.diagnostics run = [] /\
        (exists resp,
           send (Tf.mkRequest "DELETE" url None) = Ok resp /\
           StatusCode resp = StatusOK) /\
        Spec.run url polls signals 0 Spec.Polling = Spec.ConfirmedDeleted)
       \/
       (Tf.state_op run = Tf.Untouched /\
        exists d, Tf.diagnostics run = [d])).
Proof.
  intros new_request send fmt_v polls signals r state url delete.
  subst delete. unfold CollectionLifecycle.Delete. fold url.
  pose proof (CheckDeletion_loop_refines url polls signals 0 [] []) as Hag.
  fold (Deletion.CheckDeletion url polls signals) in Hag.
  split.
  - intros Hin.
    destruct (new_request "DELETE" url); [eexists; reflexivity|].
    destruct (send _) as [resp|]; [|eexists; reflexivity].
    destruct (negb _); [eexists; reflexivity|].
    destruct (@CheckDeletion_loop_returns url polls signals 0 [] [] Hin)
      as [[e tr] Hret].
    fold (Deletion.CheckDeletion url polls signals) in Hret.
    rewrite Hret. destruct e; eexists; reflexivity.
  - intros run Hrun.
    destruct (new_request "DELETE" url).
    { injection Hrun as <-. right. split; [reflexivity|].
      eexists; reflexivity. }
    destruct (send (Tf.mkRequest "DELETE" url None)) as [resp|cause]
      eqn:Hsend.
    2:{ injection Hrun as <-. right. split; [reflexivity|].
        eexists; reflexivity. }
    destruct (Z.eqb_spec (StatusCode resp) StatusOK) as [E|E];
      cbn [negb] in Hrun.
    2:{ injection Hrun as <-. right. split; [reflexivity|].
        eexists; reflexivity. }
    destruct (Deletion.CheckDeletion url polls signals) as [[[e|] tr]|];
      [| |discriminate Hrun]; injection Hrun as <-.
    + right. split; [reflexivity|]. eexists; reflexivity.
    + left. cbn in Hag. repeat split; try assumption.
      exists resp. now split.
Qed.

(** The DELETE answered 200, the first poll 404. *)
Lemma Delete_removes_only_when_verified_witness :
  let send : Tf.Request CollectionResource.CollectionPayload ->
             Outcome CollectionResource.DataBody :=
    fun _ => Ok (mkResponse StatusOK (Undecodable "EOF")) in
  let polls :=
    Deletion.active_then 0 (Ok (mkResponse StatusNotFound (Decodes ""))) in
  let signals := [Deletion.Tick; Deletion.Timeout] in
  let r := CollectionResource.mkResource "https://host" "ws1" in
  let state :=
    CollectionResource.mkModel
      (Tf.StringValue "Finance") (Tf.StringValue "active")
      (Tf.StringValue "tok1") (Tf.StringValue "custom")
      (Tf.StringValue "42") (Tf.StringValue "")
      (Tf.BoolValue false) (Tf.BoolValue false) (Tf.BoolValue true)
      (Tf.StringValue "none") in
  (exists run,
     CollectionLifecycle.Delete (fun _ _ => None) send (fun _ => "")
       polls signals r state = Some run) /\
  Spec.run "https://host/api/ws1/spaces/tok1" polls signals 0 Spec.Polling
  = Spec.ConfirmedDeleted.
Proof.
  intros send polls signals r state.
  destruct (@Delete_removes_only_when_verified (fun _ _ => None) send
              (fun _ => "") polls signals r state) as [Hret Hrun].
  split.
  - apply Hret. right. left. reflexivity.
  - destruct (Hrun (Tf.mkHandlerRun [] Tf.RemoveResource [0]) eq_refl)
      as [[_ [_ [_ H]]] | [H _]]; [exact H | discriminate H].
Defined.

(** X17.  [Update] sends the planned values as they are and stores what
    comes back: against an upstream that keeps what it is sent, [Update]
    and then [Read] leave every configured attribute as planned, the
    access level "restricted" included, and keep token and id. *)
Theorem update_then_read_planned :
  forall (r : CollectionResource.Resource)
         (plan : CollectionResource.CollectionModel) (token id : string),
    exists updated read,
      CollectionLifecycle.update_then_read r plan token id
      = Some (updated, Tf.StateSet read) /\
      CollectionResource.planned updated = CollectionResource.planned plan /\
      CollectionResource.planned read = CollectionResource.planned plan /\
      CollectionResource.CollectionToken read
      = CollectionResource.CollectionToken plan /\
      CollectionResource.Id read = CollectionResource.Id plan.
Proof.
  intros r plan token id.
  destruct plan as [name state tok ctype ident descr restr free view level].
  do 2 eexists. split; [reflexivity|]. repeat split.
Qed.

(** ** DataSourcePermissionResource: read *)

Section EntitlementFacts.
Import DataSourcePermissionRead.

Lemma find_entitlement_first (token : string) (l : list Entitlement) :
  match find_entitlement token l with
  | Some e =>
      exists before after,
        l = before ++ e :: after /\
        e_PermissionToken e = token /\
        List.Forall (fun x => e_PermissionToken x <> token) before
  | None => List.Forall (fun x => e_PermissionToken x <> token) l
  end.
Proof.
  induction l as [|x l IH]; cbn [find_entitlement]; [constructor|].
  destruct (String.eqb_spec (e_PermissionToken x) token) as [E|E].
  - exists [], l. repeat split; [exact E | constructor].
  - destruct (find_entitlement token l) as [e|].
    + destruct IH as [before [after [-> [He Hb]]]].
      exists (x :: before), after. repeat split; [exact He|].
      constructor; assumption.
    + constructor; assumption.
Qed.
End EntitlementFacts.

(** X18.  When the permission is answered 500 and the listing of the data
    source's permissions 200, [Read] takes the action from the first
    entitlement of the listing that carries the permission's token, and
    removes the resource from the state exactly when no entitlement
    carries it; both bodies are closed. *)
Theorem permission_Read_falls_back_to_listing :
  forall (new_request : string -> string -> error)
         (send : Tf.Request
                   DataSourcePermissionResource.DataSourcePermissionPayload ->
                 Outcome DataSourcePermissionRead.ReadBody)
         (r : DataSourcePermissionResource.Resource)
         (state :
            DataSourcePermissionResource.DataSourcePermissionResourceModel)
         (first second : Response DataSourcePermissionRead.ReadBody)
         (entitlements : list DataSourcePermissionRead.Entitlement),
    let url := DataSourcePermissionRead.Read_url r state in
    let listing := DataSourcePermissionRead.list_url r state in
    let token :=
      Tf.ValueString (DataSourcePermissionResource.PermissionToken state) in
    let run := DataSourcePermissionRead.Read new_request send r state in
    new_request "GET" url = None ->
    new_request "GET" listing = None ->
    send (Tf.mkRequest "GET" url None) = Ok first ->
    StatusCode first = StatusInternalServerError ->
    send (Tf.mkRequest "GET" listing None) = Ok second ->
    StatusCode second = StatusOK ->
    DataSourcePermissionRead.as_listing (Body second)
    = Decodes entitlements ->
    Tf.diagnostics run = [] /\ Tf.closed run = [1; 0] /\
    ((exists before e after,
        entitlements = before ++ e :: after /\
        DataSourcePermissionRead.e_PermissionToken e = token /\
        List.Forall
          (fun x => DataSourcePermissionRead.e_PermissionToken x <> token)
          before /\
        Tf.state_op run =
          Tf.StateSet
            (DataSourcePermissionRead.with_action state
               (DataSourcePermissionRead.e_Action e))) \/
     (List.Forall
        (fun x => DataSourcePermissionRead.e_PermissionToken x <> token)
        entitlements /\
      Tf.state_op run = Tf.RemoveResource)).
Proof.
  intros new_request send r state first second entitlements
    url listing token run Hnew Hnew2 Hsend H500 Hsend2 H200 Hdec.
  subst run. unfold DataSourcePermissionRead.Read.
  fold url. fold listing. fold token.
  rewrite Hnew, Hsend, H500.
  change (StatusInternalServerError =? StatusOK)%Z with false.
  change (StatusInternalServerError =? StatusNotFound)%Z with false.
  change (StatusInternalServerError =? StatusInternalServerError)%Z
    with true.
  cbn iota. rewrite Hnew2, Hsend2, H200.
  change (StatusOK =? StatusOK)%Z with true. cbn iota. rewrite Hdec.
  pose proof (find_entitlement_first token entitlements) as Hfind.
  destruct (DataSourcePermissionRead.find_entitlement token entitlements)
    as [e|].
  - destruct Hfind as [before [after [Hl [He Hb]]]].
    repeat split. left. exists before, e, after. repeat split; assumption.
  - repeat split. right. split; [exact Hfind | reflexivity].
Qed.

(** The listing holds two entitlements with the token: the first one gives
    the action. *)
Lemma permission_Read_falls_back_to_listing_witness :
  let listing :=
    [DataSourcePermissionRead.mkEntitlement "p0" "manage";
     DataSourcePermissionRead.mkEntitlement "p1" "query";
     DataSourcePermissionRead.mkEntitlement "p1" "view"] in
  let send : Tf.Request
               DataSourcePermissionResource.DataSourcePermissionPayload ->
             Outcome DataSourcePermissionRead.ReadBody :=
    fun req =>
      if String.eqb (Tf.req_url req)
           "https://host/api/ws1/data_sources/ds1/permissions/p1"
      then Ok DataSourcePermissionRead.internal_error
      else Ok (mkResponse StatusOK
                 (DataSourcePermissionRead.mkReadBody
                    (Undecodable "EOF") (Decodes listing))) in
  let r := DataSourcePermissionResource.mkResource "https://host" "ws1" in
  let state :=
    DataSourcePermissionResource.mkModel
      (Tf.StringValue "ds1") (Tf.StringValue "manage")
      (Tf.StringValue "g1") (Tf.StringValue "UserGroup")
      (Tf.StringValue "p1") in
  let run := DataSourcePermissionRead.Read (fun _ _ => None) send r state in
  Tf.diagnostics run = [] /\ Tf.closed run = [1; 0] /\
  Tf.state_op run =
    Tf.StateSet (DataSourcePermissionRead.with_action state "query").
Proof.
  intros listing send r state run.
  destruct (@permission_Read_falls_back_to_listing (fun _ _ => None) send
              r state DataSourcePermissionRead.internal_error
              (mkResponse StatusOK
                 (DataSourcePermissionRead.mkReadBody
                    (Undecodable "EOF") (Decodes listing)))
              listing eq_refl eq_refl eq_refl eq_refl eq_refl eq_refl
              eq_refl) as [Hd [Hc _]].
  split; [exact Hd|]. split; [exact Hc|]. reflexivity.
Defined.

(** X19.  On every path [Read] of a data source permission ends with no
    diagnostic and the state set or removed, or with one error diagnostic
    and the state untouched; and it closes the body of the first response
    whenever the first call is answered, whatever the status. *)
Theorem permission_Read_stores_or_reports :
  forall (new_request : string -> string -> error)
         (send : Tf.Request
                   DataSourcePermissionResource.DataSourcePermissionPayload ->
                 Outcome DataSourcePermissionRead.ReadBody)
         (r : DataSourcePermissionResource.Resource)
         (state :
            DataSourcePermissionResource.DataSourcePermissionResourceModel),
    let run := DataSourcePermissionRead.Read new_request send r state in
    let url := DataSourcePermissionRead.Read_url r state in
    stores_or_reports run /\
    (forall resp,
       new_request "GET" url = None ->
       send (Tf.mkRequest "GET" url None) = Ok resp ->
       Tf.closed run = [0] \/ Tf.closed run = [1; 0]).
Proof.
  intros new_request send r state run url. subst run.
  unfold DataSourcePermissionRead.Read. fold url.
  destruct (new_request "GET" url) as [cause|].
  { split; [apply failed_reports|]. intros resp H. discriminate H. }
  destruct (send (Tf.mkRequest "GET" url None)) as [resp|cause].
  2:{ split; [apply failed_reports|]. intros resp _ H. discriminate H. }
  destruct (StatusCode resp =? StatusOK)%Z.
  { destruct (DataSourcePermissionRead.as_permission (Body resp))
      as [cause|[tok action]].
    - split; [apply failed_reports|]. intros; now left.
    - split; [apply set_stores|]. intros; now left. }
  destruct (StatusCode resp =? StatusNotFound)%Z.
  { split; [apply removed_stores|]. intros; now left. }
  destruct (StatusCode resp =? StatusInternalServerError)%Z.
  2:{ split; [apply failed_reports|]. intros; now left. }
  destruct (new_request "GET" _).
  { split; [apply failed_reports|]. intros; now left. }
  destruct (send _) as [resp2|cause].
  2:{ split; [apply failed_reports|]. intros; now left. }
  destruct (StatusCode resp2 =? StatusOK)%Z.
  2:{ split; [apply failed_reports|]. intros; now right. }
  destruct (DataSourcePermissionRead.as_listing (Body resp2)) as [cause|l].
  { split; [apply failed_reports|]. intros; now right. }
  destruct (DataSourcePermissionRead.find_entitlement _ l).
  - split; [apply set_stores|]. intros; now right.
  - split; [apply removed_stores|]. intros; now right.
Qed.

(** A permission answered 404: removed, with the body closed. *)
Lemma permission_Read_stores_or_reports_witness :
  let send : Tf.Request
               DataSourcePermissionResource.DataSourcePermissionPayload ->
             Outcome DataSourcePermissionRead.ReadBody :=
    fun _ => Ok (mkResponse StatusNotFound
                   (DataSourcePermissionRead.mkReadBody
                      (Undecodable "EOF") (Undecodable "EOF"))) in
  let r := DataSourcePermissionResource.mkResource "https://host" "ws1" in
  let state :=
    DataSourcePermissionResource.mkModel
      (Tf.StringValue "ds1") (Tf.StringValue "manage")
      (Tf.StringValue "g1") (Tf.StringValue "UserGroup")
      (Tf.StringValue "p1") in
  let run := DataSourcePermissionRead.Read (fun _ _ => None) send r state in
  Tf.closed run = [0] \/ Tf.closed run = [1; 0].
Proof.
  intros send r state run.
  destruct (@permission_Read_stores_or_reports (fun _ _ => None) send r state)
    as [_ H].
  apply (H (mkResponse StatusNotFound
              (DataSourcePermissionRead.mkReadBody
                 (Undecodable "EOF") (Undecodable "EOF"))));
    reflexivity.
Defined.

(** ** The provider's configuration *)

Section ProviderFacts.
Import Tf Provider.
Variable getenv : string -> string.

Lemma setting_supplied (name : string) (configured : TString) (s : string) :
  supplied getenv name configured s ->
  setting getenv name configured = s /\ Str.is_empty s = false.
Proof.
  intros [Hne [-> | [-> Henv]]]; (split; [|now apply is_empty_false]).
  - reflexivity.
  - exact Henv.
Qed.

End ProviderFacts.

(** X20.  Each of the four settings comes from the provider block when the
    block gives it, and from its environment variable only when the block
    leaves it null: with every setting supplied one way or the other,
    [Configure] reports nothing and hands the same host, workspace and
    credentials to the resources and to the data sources. *)
Theorem Configure_takes_block_then_environment :
  forall (getenv : string -> string)
         (data : Provider.ScaffoldingProviderModel)
         (host token secret workspace : string),
    Provider.supplied getenv "MODE_ANALYTICS_HOST"
      (Provider.ModeHost data) host ->
    Provider.supplied getenv "MODE_ANALYTICS_API_TOKEN"
      (Provider.ApiToken data) token ->
    Provider.supplied getenv "MODE_ANALYTICS_API_SECRET"
      (Provider.ApiSecret data) secret ->
    Provider.supplied getenv "MODE_ANALYTICS_WORKSPACE_ID"
      (Provider.WorkspaceId data) workspace ->
    let handed :=
      Provider.mkProviderData (Provider.mkTransport token secret)
        host workspace in
    Provider.Configure getenv data =
    Provider.mkConfigureResponse [] (Some handed) (Some handed).
Proof.
  intros getenv data host token secret workspace Hh Ht Hs Hw handed.
  apply setting_supplied in Hh, Ht, Hs, Hw.
  destruct Hh as [Eh Nh], Ht as [Et Nt], Hs as [Es Ns], Hw as [Ew Nw].
  unfold Provider.Configure. rewrite Eh, Et, Es, Ew, Nh, Nt, Ns, Nw.
  reflexivity.
Qed.

(** The host from the block, although the environment names another; the
    rest from the environment. *)
Lemma Configure_takes_block_then_environment_witness :
  let getenv := fun name : string =>
    if String.eqb name "MODE_ANALYTICS_HOST" then "https://env.example"
    else if String.eqb name "MODE_ANALYTICS_API_TOKEN" then "tok"
    else if String.eqb name "MODE_ANALYTICS_API_SECRET" then "sec"
    else if String.eqb name "MODE_ANALYTICS_WORKSPACE_ID" then "acme"
    else "" in
  let data :=
    Provider.mkProviderModel (Tf.StringValue "https://app.mode.com")
      Tf.StringNull Tf.StringNull Tf.StringNull in
  let handed :=
    Provider.mkProviderData (Provider.mkTransport "tok" "sec")
      "https://app.mode.com" "acme" in
  Provider.Configure getenv data =
  Provider.mkConfigureResponse [] (Some handed) (Some handed).
Proof.
  intros getenv data.
  apply (@Configure_takes_block_then_environment getenv data
           "https://app.mode.com" "tok" "sec" "acme").
  - split; [discriminate | left; reflexivity].
  - split; [discriminate | right; split; reflexivity].
  - split; [discriminate | right; split; reflexivity].
  - split; [discriminate | right; split; reflexivity].
Defined.

(** X21.  A setting the block holds without text, as the empty string or
    as a value not yet known, is not filled in from the environment:
    [Configure] reports the missing configuration and hands out nothing,
    whatever the environment variables say. *)
Theorem Configure_blank_setting_fails :
  forall (getenv : string -> string)
         (data : Provider.ScaffoldingProviderModel),
    Provider.blank (Provider.ModeHost data) \/
    Provider.blank (Provider.ApiToken data) \/
    Provider.blank (Provider.ApiSecret data) \/
    Provider.blank (Provider.WorkspaceId data) ->
    Provider.Configure getenv data =
    Provider.mkConfigureResponse [Provider.missing_configuration] None None.
Proof.
  intros getenv data H. unfold Provider.Configure.
  destruct H as [[E|E] | [[E|E] | [[E|E] | [E|E]]]]; rewrite E;
    cbn [Provider.setting Provider.IsNull negb Tf.ValueString
         Str.is_empty orb];
    rewrite ?orb_true_r; cbn [orb]; rewrite ?orb_true_r; reflexivity.
Qed.

(** The block says [mode_host = ""] while the environment names a host. *)
Lemma Configure_blank_setting_fails_witness :
  let getenv := fun _ : string => "set" in
  let data :=
    Provider.mkProviderModel (Tf.StringValue "")
      (Tf.StringValue "tok") (Tf.StringValue "sec")
      (Tf.StringValue "acme") in
  Provider.Configure getenv data =
  Provider.mkConfigureResponse [Provider.missing_configuration] None None.
Proof.
  intros getenv data.
  apply (@Configure_blank_setting_fails getenv data).
  left. right. reflexivity.
Defined.

(** X22.  [Configure] hands out nothing half done: either it reports
    nothing and gives the resources and the data sources the same data,
    with no empty host, workspace, token or secret in it, or it reports
    the missing configuration and gives neither of them anything. *)
Theorem Configure_complete_or_nothing :
  forall (getenv : string -> string)
         (data : Provider.ScaffoldingProviderModel),
    let resp := Provider.Configure getenv data in
    (Provider.cfg_diagnostics resp = [] /\
     exists handed,
       Provider.DataSourceData resp = Some handed /\
       Provider.ResourceData resp = Some handed /\
       Provider.pd_ModeHost handed <> "" /\
       Provider.pd_WorkspaceId handed <> "" /\
       Provider.apiToken (Provider.Client handed) <> "" /\
       Provider.apiSecret (Provider.Client handed) <> "") \/
    (Provider.cfg_diagnostics resp = [Provider.missing_configuration] /\
     Provider.DataSourceData resp = None /\
     Provider.ResourceData resp = None).
Proof.
  intros getenv data resp. subst resp. unfold Provider.Configure.
  destruct (Str.is_empty
              (Provider.setting getenv "MODE_ANALYTICS_HOST"
                 (Provider.ModeHost data))) eqn:Eh;
    [right; repeat split|].
  destruct (Str.is_empty
              (Provider.setting getenv "MODE_ANALYTICS_API_TOKEN"
                 (Provider.ApiToken data))) eqn:Et;
    [right; repeat split|].
  destruct (Str.is_empty
              (Provider.setting getenv "MODE_ANALYTICS_API_SECRET"
                 (Provider.ApiSecret data))) eqn:Es;
    [right; repeat split|].
  destruct (Str.is_empty
              (Provider.setting getenv "MODE_ANALYTICS_WORKSPACE_ID"
                 (Provider.WorkspaceId data))) eqn:Ew;
    [right; repeat split|].
  left. split; [reflexivity|]. eexists.
  split; [reflexivity|]. split; [reflexivity|].
  apply is_empty_false in Eh, Et, Es, Ew.
  repeat split; assumption.
Qed.

(** ** GroupsDataSource *)

Lemma collect_from (f : GroupsDataSource.Group ->
                        GroupsDataSource.GroupResourceModel)
    (groups : list GroupsDataSource.Group) :
  forall data,
    List.fold_left (fun data group => data ++ [f group]) groups data
    = data ++ List.map f groups.
Proof.
  induction groups as [|g groups IH]; intros data; cbn [List.fold_left
    List.map].
  - now rewrite List.app_nil_r.
  - rewrite IH, <- List.app_assoc. reflexivity.
Qed.

(** X23.  When the listing of groups is answered 200 with a body that
    decodes, [Read] stores one entry for each group of the answer, in the
    order of the answer, with its token, name and state; it reports
    nothing and closes the body. *)
Theorem groups_Read_lists_in_order :
  forall (new_request : string -> string -> error)
         (send : option (Tf.Request unit) ->
                 Outcome GroupsDataSource.ListBody)
         (d : GroupsDataSource.DataSource)
         (resp : Response GroupsDataSource.ListBody)
         (groups : list GroupsDataSource.Group),
    let url := GroupsDataSource.Read_url d in
    new_request "GET" url = None ->
    send (Some (Tf.mkRequest "GET" url None)) = Ok resp ->
    StatusCode resp = StatusOK ->
    Body resp = Decodes groups ->
    GroupsDataSource.Read new_request send d =
    Tf.mkHandlerRun []
      (Tf.StateSet
         (GroupsDataSource.mkGroups
            (List.map GroupsDataSource.listed groups)))
      [0].
Proof.
  intros new_request send d resp groups url Hnew Hsend H200 Hbody.
  unfold GroupsDataSource.Read. fold url.
  rewrite Hnew, Hsend, H200, Hbody.
  change (StatusOK =? StatusOK)%Z with true. cbn [negb].
  unfold GroupsDataSource.collect. rewrite collect_from. reflexivity.
Qed.

Lemma groups_Read_lists_in_order_witness :
  let groups :=
    [GroupsDataSource.mkListed "g1" "Analysts" "active";
     GroupsDataSource.mkListed "g2" "Finance" "active"] in
  let send : option (Tf.Request unit) -> Outcome GroupsDataSource.ListBody :=
    fun _ => Ok (mkResponse StatusOK (Decodes groups)) in
  GroupsDataSource.Read (fun _ _ => None) send
    (GroupsDataSource.mkDataSource "https://host" "ws1")
  = Tf.mkHandlerRun []
      (Tf.StateSet
         (GroupsDataSource.mkGroups
            [GroupsDataSource.mkGroup (Tf.StringValue "g1")
               (Tf.StringValue "Analysts") (Tf.StringValue "active");
             GroupsDataSource.mkGroup (Tf.StringValue "g2")
               (Tf.StringValue "Finance") (Tf.StringValue "active")]))
      [0].
Proof.
  intros groups send.
  apply (@groups_Read_lists_in_order (fun _ _ => None) send
           (GroupsDataSource.mkDataSource "https://host" "ws1")
           (mkResponse StatusOK (Decodes groups)) groups);
    reflexivity.
Defined.
